(** * Authentication and credential life cycle of the content server

    A shallow embedding of [src/app/models/otp.models.ts], of the user model
    and of [src/app/services/auth.service.ts] (with the controller and the
    error middleware that turn a service outcome into an HTTP response),
    followed by the properties of the OTP engine and of the auth workflows.

    Conventions of the embedding.
    - Dates are [Z] milliseconds since the epoch.  A request observes one
      clock value [now]: every [new Date()] and [Date.now()] of one workflow
      reads it.
    - The two tables are lists of rows in insertion order; a [findOne]
      without [ORDER BY] returns the first matching row.
    - Random sources ([crypto.randomBytes], [bcrypt.genSalt]) are explicit
      inputs.
    - Sequelize's managed-by-hand transaction is a record holding the
      [finished] flag and the writes issued with [{ transaction }]; a query
      issued without that option runs on the committed tables at once. *)

From Stdlib Require Import ZArith NArith List String Ascii Bool Lia.
From Stdlib Require Import DecimalString.
From Stdlib Require Decimal DecimalFacts DecimalPos.
Import ListNotations.

Local Open Scope string_scope.
Local Open Scope Z_scope.

(* ===================================================================== *)
(** ** Strings: [toLowerCase], [ILIKE], decimal printing                   *)
(* ===================================================================== *)

Module Str.

(** ASCII case folding; bytes outside [A-Z] are left alone. *)
Definition lower_ascii (c : ascii) : ascii :=
  let n := N_of_ascii c in
  if ((65 <=? n) && (n <=? 90))%N then ascii_of_N (n + 32) else c.

Fixpoint toLowerCase (s : string) : string :=
  match s with
  | EmptyString => EmptyString
  | String c s' => String (lower_ascii c) (toLowerCase s')
  end.

Definition eqb_ci (a b : ascii) : bool :=
  Ascii.eqb (lower_ascii a) (lower_ascii b).

(** PostgreSQL [text ILIKE pattern]: [%] matches any run of characters,
    [_] any single character, a backslash quotes the next pattern
    character, everything else is compared case-insensitively.  A pattern
    ending in a lone backslash matches nothing here (see
    [dangling_escape]; no address admitted by the request schemas has
    one). *)
Fixpoint iLike (pattern text : string) {struct pattern} : bool :=
  match pattern with
  | EmptyString =>
      match text with EmptyString => true | _ => false end
  | String p pattern' =>
      if Ascii.eqb p "%" then
        (fix skip (t : string) : bool :=
           iLike pattern' t
           || match t with
              | EmptyString => false
              | String _ t' => skip t'
              end) text
      else if Ascii.eqb p "_" then
        match text with
        | EmptyString => false
        | String _ text' => iLike pattern' text'
        end
      else if Ascii.eqb p "\" then
        match pattern' with
        | EmptyString => false
        | String q pattern'' =>
            match text with
            | EmptyString => false
            | String c text' => eqb_ci q c && iLike pattern'' text'
            end
        end
      else
        match text with
        | EmptyString => false
        | String c text' => eqb_ci p c && iLike pattern' text'
        end
  end.

(** A pattern whose last character is an unquoted backslash.  PostgreSQL
    raises an error when a comparison reaches it; [iLike] is exact for the
    other patterns. *)
Fixpoint dangling_escape (pattern : string) : bool :=
  match pattern with
  | EmptyString => false
  | String p pattern' =>
      if Ascii.eqb p "\" then
        match pattern' with
        | EmptyString => true
        | String _ pattern'' => dangling_escape pattern''
        end
      else dangling_escape pattern'
  end.

(** [Number.prototype.toString()] of a non-negative integer. *)
Definition of_N (n : N) : string := NilZero.string_of_uint (N.to_uint n).

Fixpoint repeat_char (c : ascii) (n : nat) : string :=
  match n with
  | O => EmptyString
  | S n' => String c (repeat_char c n')
  end.

(** [s.padStart(len, "0")]. *)
Definition padStart0 (len : nat) (s : string) : string :=
  repeat_char "0" (len - String.length s) ++ s.

End Str.

(* ===================================================================== *)
(** ** Data model                                                         *)
(* ===================================================================== *)

Inductive TUserStatus := active | inactive | blocked.
Inductive TUserRole := role_user | role_admin.

Inductive TOTPPurpose :=
| password_reset
| email_verification
| two_fa
| phone_verification.

Definition status_eqb (a b : TUserStatus) : bool :=
  match a, b with
  | active, active | inactive, inactive | blocked, blocked => true
  | _, _ => false
  end.

Definition purpose_eqb (a b : TOTPPurpose) : bool :=
  match a, b with
  | password_reset, password_reset
  | email_verification, email_verification
  | two_fa, two_fa
  | phone_verification, phone_verification => true
  | _, _ => false
  end.

(** A row of [users].  [password] holds the bcrypt hash; [deletedAt] is the
    paranoid (soft delete) column.  Columns that no auth workflow reads or
    writes (phone, images, referral data, time stamps) are left out. *)
Record User := mkUser {
  user_id : string;
  firstName : string;
  lastName : string;
  email : string;
  emailVerified : bool;
  password : string;
  status : TUserStatus;
  role : TUserRole;
  credits : Z;
  user_deletedAt : option Z
}.

(** A row of [otps].  The primary key (a UUID in the source) is a number.
    No code path of the repository soft-deletes an OTP row, so its
    [deletedAt] column is always NULL and is left out, as is [updatedAt]. *)
Record OTP := mkOTP {
  otp_id : N;
  userId : string;
  code : string;
  purpose : TOTPPurpose;
  expiresAt : Z;
  used : bool;
  metadata : option string;
  createdAt : Z
}.

Record DB := mkDB {
  users : list User;
  otps : list OTP
}.

(** [OTP.isExpired], [OTP.isValid] of [otp.models.ts]. *)
Definition isExpired (now : Z) (o : OTP) : bool := expiresAt o <? now.
Definition isValid (now : Z) (o : OTP) : bool :=
  negb (isExpired now o) && negb (used o).

(** The predicate shared by the queries of the engine:
    [used: false, expiresAt: { [Op.gt]: new Date() }]. *)
Definition pending (now : Z) (o : OTP) : bool :=
  negb (used o) && (now <? expiresAt o).

Definition pending_for (u : string) (p : TOTPPurpose) (now : Z) (o : OTP)
  : bool :=
  String.eqb (userId o) u && purpose_eqb (purpose o) p && pending now o.

Definition set_used (o : OTP) : OTP :=
  mkOTP (otp_id o) (userId o) (code o) (purpose o) (expiresAt o) true
        (metadata o) (createdAt o).

(* ===================================================================== *)
(** ** Collaborators: bcrypt, jsonwebtoken, configuration                 *)
(* ===================================================================== *)

(** [bcryptjs], idealised: a hash of [q] under any salt accepts exactly
    [q]. *)
Class Bcrypt := {
  bcrypt_hash : string -> string -> string;      (* plaintext, salt *)
  bcrypt_compare : string -> string -> bool;     (* plaintext, hash *)
  bcrypt_compare_hash :
    forall p q salt, bcrypt_compare p (bcrypt_hash q salt) = String.eqb p q
}.

(** An instance, used to run the model on concrete inputs: the hash keeps
    the salt in a one-character prefix. *)
Definition toy_hash (plain salt : string) : string :=
  String (match salt with String c _ => c | EmptyString => "$"%char end)
         plain.

Definition toy_compare (plain hash : string) : bool :=
  match hash with
  | String _ h => String.eqb plain h
  | EmptyString => false
  end.

Definition toy_bcrypt : Bcrypt :=
  {| bcrypt_hash := toy_hash;
     bcrypt_compare := toy_compare;
     bcrypt_compare_hash := fun p q salt => eq_refl |}.

Inductive TokenType := ACCESS | REFRESH | RESET_PASSWORD | EMAIL_VERIFICATION.

Definition tokenType_eqb (a b : TokenType) : bool :=
  match a, b with
  | ACCESS, ACCESS | REFRESH, REFRESH
  | RESET_PASSWORD, RESET_PASSWORD
  | EMAIL_VERIFICATION, EMAIL_VERIFICATION => true
  | _, _ => false
  end.

(** The two claim sets the service signs: [AuthTokenPayload] and the
    password-reset continuation [{ sub, purpose, iat }]. *)
Inductive Payload :=
| AuthTokenPayload (id : string) (email : string) (role : TUserRole)
                   (type : TokenType)
| PurposePayload (sub : string) (purpose : string).

(** A signed token, symbolically: the claims, [iat] and [exp] in seconds,
    and the key it was signed with. *)
Record Token := mkToken {
  tok_payload : Payload;
  tok_iat : Z;
  tok_exp : Z;
  tok_key : string
}.

Record Config := mkConfig { jwtSecret : string }.

(** Exceptions met in the service: [AppError], jsonwebtoken's
    [JsonWebTokenError] (with its subclass [TokenExpiredError]), and a plain
    [Error]. *)
Inductive Exn :=
| AppError (message : string) (statusCode : Z)
| JsonWebTokenError (message : string)
| Error (message : string).

Definition seconds (now : Z) : Z := now / 1000.

(** [jwt.sign(payload, secret, { expiresIn })], [expiresIn] in seconds. *)
Definition jwt_sign (now : Z) (p : Payload) (secret : string) (expiresIn : Z)
  : Token :=
  mkToken p (seconds now) (seconds now + expiresIn) secret.

(** [jwt.verify(token, secret)]: the signature, then the expiry. *)
Definition jwt_verify (now : Z) (t : Token) (secret : string)
  : Exn + Payload :=
  if negb (String.eqb (tok_key t) secret)
  then inl (JsonWebTokenError "invalid signature")
  else if tok_exp t <=? seconds now
  then inl (JsonWebTokenError "jwt expired")
  else inr (tok_payload t).

(* ===================================================================== *)
(** ** The OTP engine ([otp.models.ts])                                   *)
(* ===================================================================== *)

(** What one request draws from its random sources: the 32-bit word read by
    [generateNumericCode], the bytes read by [generateAlphanumericCode] and
    the salt of [bcrypt.genSalt]. *)
Record Random := mkRandom {
  rand_uint32 : Z;
  rand_bytes : list Z;
  rand_salt : string
}.

(** [generateNumericCode(length)]; [r] is [randomBytes.readUInt32BE(0)].
    Exact for [1 <= length] ([createOTP] passes nothing else). *)
Definition generateNumericCode (r : Z) (length : Z) : string :=
  let min := 10 ^ (length - 1) in
  let max := 10 ^ length - 1 in
  let randomNumber := r mod (max - min + 1) + min in
  Str.padStart0 (Z.to_nat length) (Str.of_N (Z.to_N randomNumber)).

Definition alphanumeric_chars : string := "ABCDEFGHIJKLMNOPQRSTUVWXYZ0123456789".

(** [generateAlphanumericCode(length)]: one character per random byte. *)
Fixpoint generateAlphanumericCode_from (bytes : list Z) (length : nat)
  : string :=
  match length with
  | O => EmptyString
  | S length' =>
      let b := match bytes with b :: _ => b | [] => 0 end in
      let randomIndex := b mod Z.of_nat (String.length alphanumeric_chars) in
      match String.get (Z.to_nat randomIndex) alphanumeric_chars with
      | Some c => String c (generateAlphanumericCode_from (tl bytes) length')
      | None => generateAlphanumericCode_from (tl bytes) length'
      end
  end.

Definition generateAlphanumericCode (bytes : list Z) (length : Z) : string :=
  generateAlphanumericCode_from bytes (Z.to_nat length).

(** The [options] argument of [createOTP]; an absent field is [None]
    ([false] for the flag). *)
Record Options := mkOptions {
  expiresInMinutes : option Z;
  opt_metadata : option string;
  alphanumeric : bool;
  length : option Z
}.

(** [x || d] on an optional number: [undefined] and [0] are falsy. *)
Definition or_default (x : option Z) (d : Z) : Z :=
  match x with
  | Some v => if v =? 0 then d else v
  | None => d
  end.

Definition no_options : Options := mkOptions None None false None.

(** The default primary key of a new row, unused so far in the table. *)
Definition fresh_id (table : list OTP) : N :=
  N.succ (fold_right (fun o m => N.max (otp_id o) m) 0%N table).

(** The bulk [OTP.update({ used: true }, { where })]. *)
Definition update_used_where (where_ : OTP -> bool) (table : list OTP)
  : list OTP :=
  map (fun o => if where_ o then set_used o else o) table.

(** [OTP.createOTP(userId, purpose, options)]: the new table and the row
    created. *)
Definition createOTP (now : Z) (rnd : Random) (u : string) (p : TOTPPurpose)
           (options : option Options) (table : list OTP) : list OTP * OTP :=
  let opts := match options with Some o => o | None => no_options end in
  let expiresInMinutes := or_default (expiresInMinutes opts) 15 in
  let expiresAt := now + expiresInMinutes * 60000 in
  let codeLength :=
    or_default (length opts) (if purpose_eqb p two_fa then 6 else 8) in
  let code :=
    if alphanumeric opts
    then generateAlphanumericCode (rand_bytes rnd) codeLength
    else generateNumericCode (rand_uint32 rnd) codeLength in
  let invalidated := update_used_where (pending_for u p now) table in
  let otp :=
    mkOTP (fresh_id table) u code p expiresAt false (opt_metadata opts) now in
  ((invalidated ++ [otp])%list, otp).

(** [OTP.verifyOTP]: a read. *)
Definition verifyOTP (now : Z) (u c : string) (p : TOTPPurpose)
           (table : list OTP) : option OTP :=
  find (fun o => String.eqb (userId o) u && String.eqb (code o) c
                 && purpose_eqb (purpose o) p && pending now o) table.

(** [otp.markAsUsed()]: [save] writes the row of that primary key. *)
Definition markAsUsed (o : OTP) (table : list OTP) : list OTP :=
  update_used_where (fun r => N.eqb (otp_id r) (otp_id o)) table.

(** [OTP.verifyAndConsumeOTP]. *)
Definition verifyAndConsumeOTP (now : Z) (u c : string) (p : TOTPPurpose)
           (table : list OTP) : list OTP * option OTP :=
  match verifyOTP now u c p table with
  | Some otp => (markAsUsed otp table, Some (set_used otp))
  | None => (table, None)
  end.

(** [OTP.getValidOTPs(userId, purpose?)], without its ordering. *)
Definition getValidOTPs (now : Z) (u : string) (p : option TOTPPurpose)
           (table : list OTP) : list OTP :=
  filter (fun o => String.eqb (userId o) u && pending now o
                   && match p with
                      | Some p => purpose_eqb (purpose o) p
                      | None => true
                      end) table.

(** [OTP.cleanupExpiredOTPs]: the new table and the affected count. *)
Definition cleanupExpiredOTPs (now : Z) (table : list OTP) : list OTP * Z :=
  let expired o := negb (used o) && (expiresAt o <? now) in
  (update_used_where expired table,
   Z.of_nat (List.length (filter expired table))).

(* ===================================================================== *)
(** ** Transactions and the workflow monad                                *)
(* ===================================================================== *)

(** The statements the service issues with [{ transaction }]. *)
Inductive Write :=
| WOtpUsed (id : N)
    (** [otpRecord.update({ used: true })]: the row of that key *)
| WOtpsUsedWhere (u : string) (p : TOTPPurpose)
    (** [OTP.update({ used: true }, { where: { userId, purpose, used: false } })] *)
| WUserPassword (id : string) (hash : string)
| WUserEmailVerified (id : string).

Definition set_password (h : string) (u : User) : User :=
  mkUser (user_id u) (firstName u) (lastName u) (email u) (emailVerified u)
         h (status u) (role u) (credits u) (user_deletedAt u).

Definition set_emailVerified (u : User) : User :=
  mkUser (user_id u) (firstName u) (lastName u) (email u) true
         (password u) (status u) (role u) (credits u) (user_deletedAt u).

Definition update_user (id : string) (f : User -> User) (table : list User)
  : list User :=
  map (fun u => if String.eqb (user_id u) id then f u else u) table.

Definition apply_write (db : DB) (w : Write) : DB :=
  match w with
  | WOtpUsed id =>
      mkDB (users db)
           (update_used_where (fun o => N.eqb (otp_id o) id) (otps db))
  | WOtpsUsedWhere u p =>
      mkDB (users db)
           (update_used_where
              (fun o => String.eqb (userId o) u && purpose_eqb (purpose o) p
                        && negb (used o)) (otps db))
  | WUserPassword id h =>
      mkDB (update_user id (set_password h) (users db)) (otps db)
  | WUserEmailVerified id =>
      mkDB (update_user id set_emailVerified (users db)) (otps db)
  end.

(** [transaction.finished] is undefined, ['commit'] or ['rollback']. *)
Inductive Finished := commit | rollback.

Definition Finished_name (f : Finished) : string :=
  match f with commit => "commit" | rollback => "rollback" end.

Record Transaction := mkTransaction {
  finished : option Finished;
  writes : list Write
}.

(** [await sequelize.transaction()]. *)
Definition new_transaction : Transaction := mkTransaction None [].

(** What a running workflow acts on: the committed tables and its own
    transaction. *)
Record State := mkState {
  committed : DB;
  transaction : Transaction
}.

(** The tables as seen through the transaction: committed rows overlaid
    with the transaction's own writes. *)
Definition visible (st : State) : DB :=
  fold_left apply_write (writes (transaction st)) (committed st).

(** The environment of one request: configuration, the clock, the random
    draws, and whether the database accepts its COMMIT. *)
Record Env := mkEnv {
  config : Config;
  now : Z;
  random : Random;
  commit_ok : bool
}.

(** A workflow step either returns or throws, and updates the state. *)
Definition M (A : Type) : Type := State -> State * (Exn + A).

Definition ret {A} (a : A) : M A := fun st => (st, inr a).

Definition throw {A} (e : Exn) : M A := fun st => (st, inl e).

Definition bind {A B} (m : M A) (k : A -> M B) : M B :=
  fun st =>
    match m st with
    | (st', inr a) => k a st'
    | (st', inl e) => (st', inl e)
    end.

(** [try { body } catch (error) { handler }]. *)
Definition try_catch {A} (body : M A) (handler : Exn -> M A) : M A :=
  fun st =>
    match body st with
    | (st', inl e) => handler e st'
    | r => r
    end.

Declare Scope workflow_scope.
Delimit Scope workflow_scope with workflow.
Notation "x <- m ;; k" := (bind m (fun x => k))
  (at level 61, m at next level, right associativity) : workflow_scope.
Notation "m ;; k" := (bind m (fun _ => k))
  (at level 61, right associativity) : workflow_scope.
Local Open Scope workflow_scope.

(** A read with [{ transaction }], and one on a pooled connection. *)
Definition read_tx : M DB := fun st => (st, inr (visible st)).
Definition read : M DB := fun st => (st, inr (committed st)).

(** A write with [{ transaction }] is held back until COMMIT. *)
Definition stage (w : Write) : M unit :=
  fun st =>
    (mkState (committed st)
             (mkTransaction (finished (transaction st))
                            (writes (transaction st) ++ [w])%list),
     inr tt).

(** [transaction.commit()].  Sequelize rejects when the transaction is
    already finished; otherwise it sends COMMIT and, whatever the answer,
    marks the transaction finished with state ['commit']. *)
Definition transaction_commit (env : Env) : M unit :=
  fun st =>
    match finished (transaction st) with
    | Some f =>
        (st, inl (Error ("Transaction cannot be committed because it has been finished with state: "
                         ++ Finished_name f)))
    | None =>
        if commit_ok env
        then (mkState (visible st) (mkTransaction (Some commit) []), inr tt)
        else (mkState (committed st) (mkTransaction (Some commit) []),
              inl (Error "COMMIT failed"))
    end.

(** [transaction.rollback()].  Sequelize rejects when the transaction is
    already finished ("Transaction cannot be rolled back because it has
    been finished with state: ..."); otherwise the staged writes are
    dropped. *)
Definition transaction_rollback : M unit :=
  fun st =>
    match finished (transaction st) with
    | Some f =>
        (st, inl (Error ("Transaction cannot be rolled back because it has been finished with state: "
                         ++ Finished_name f)))
    | None =>
        (mkState (committed st) (mkTransaction (Some rollback) []), inr tt)
    end.

(** Runs a workflow from the committed tables [db]; the result is the
    committed tables afterwards and the outcome of the promise. *)
Definition run {A} (m : M A) (db : DB) : DB * (Exn + A) :=
  let (st, r) := m (mkState db new_transaction) in (committed st, r).

(* ===================================================================== *)
(** ** Queries                                                            *)
(* ===================================================================== *)

(** The paranoid default scope of [User]: [deleted_at IS NULL]. *)
Definition paranoid (u : User) : bool :=
  match user_deletedAt u with None => true | Some _ => false end.

Definition User_findOne (where_ : User -> bool) (db : DB) : option User :=
  find (fun u => paranoid u && where_ u) (users db).

Definition User_findByPk (id : string) (db : DB) : option User :=
  User_findOne (fun u => String.eqb (user_id u) id) db.

(** [where: { email: { [Op.iLike]: email } }]. *)
Definition email_iLike (pattern : string) (u : User) : bool :=
  Str.iLike pattern (email u).

Definition OTP_findOne (where_ : OTP -> bool) (db : DB) : option OTP :=
  find where_ (otps db).

(** [findOne] with [order: [["createdAt", "DESC"]]]. *)
Definition latest (acc : option OTP) (o : OTP) : option OTP :=
  match acc with
  | Some best => if createdAt best <? createdAt o then Some o else acc
  | None => Some o
  end.

Definition OTP_findOne_latest (where_ : OTP -> bool) (db : DB) : option OTP :=
  fold_left latest (filter where_ (otps db)) None.

Definition OTP_count (where_ : OTP -> bool) (db : DB) : Z :=
  Z.of_nat (List.length (filter where_ (otps db))).

(** [where: { email: email.toLowerCase(), status: ["active", "inactive"] }],
    the lookup of [login]. *)
Definition login_where (email_ : string) (u : User) : bool :=
  String.eqb (email u) (Str.toLowerCase email_)
  && (status_eqb (status u) active || status_eqb (status u) inactive).

(** [where: { userId, code, purpose, expiresAt: { [Op.gt]: new Date() },
    used: false }], the lookup of [verifyOtp] and [verifyEmail]. *)
Definition where_code (u c : string) (p : TOTPPurpose) (t : Z) (o : OTP)
  : bool :=
  String.eqb (userId o) u && String.eqb (code o) c
  && purpose_eqb (purpose o) p && (t <? expiresAt o) && negb (used o).

(** [where: { userId, purpose, createdAt: { [Op.gt]: since } }], the count
    of the rate limit. *)
Definition where_recent (u : string) (p : TOTPPurpose) (since : Z) (o : OTP)
  : bool :=
  String.eqb (userId o) u && purpose_eqb (purpose o) p
  && (since <? createdAt o).

(** [OTP.createOTP] is called without a transaction: both of its
    statements run on the committed tables. *)
Definition OTP_createOTP (env : Env) (u : string) (p : TOTPPurpose)
           (options : option Options) : M OTP :=
  fun st =>
    let (table, otp) :=
      createOTP (now env) (random env) u p options (otps (committed st)) in
    (mkState (mkDB (users (committed st)) table) (transaction st), inr otp).

(* ===================================================================== *)
(** ** The auth service ([auth.service.ts])                               *)
(* ===================================================================== *)

Definition OTP_EXPIRY_MINUTES : Z := 10.
Definition JWT_EXPIRY_MINUTES : Z := 15.
Definition RATE_LIMIT_WINDOW_MS : Z := 15 * 60 * 1000.
Definition MAX_ATTEMPTS : Z := 3.

(** The [user] object of the login response. *)
Record UserView := mkUserView {
  view_id : string;
  view_firstName : string;
  view_lastName : string;
  view_email : string;
  view_role : TUserRole;
  view_credits : Z;
  view_emailVerified : bool
}.

(** The JSON bodies the auth routes answer with. *)
Inductive Body :=
| Message (message : string)
| ResetToken (resetToken : Token)
| LoginData (message : string) (user : UserView)
            (accessToken refreshToken : Token)
| Tokens (message : string) (accessToken refreshToken : Token)
| Failure (message : string).   (** [{ success: false, message }] *)

Definition days (n : Z) : Z := n * 24 * 60 * 60.

(** [generateAuthTokens(user)]: access token first, refresh token second. *)
Definition generateAuthTokens (env : Env) (user : User) : Token * Token :=
  let payload type :=
    AuthTokenPayload (user_id user) (email user) (role user) type in
  (jwt_sign (now env) (payload ACCESS) (jwtSecret (config env)) (days 360),
   jwt_sign (now env) (payload REFRESH) (jwtSecret (config env)) (days 7)).

(** [payload.purpose] and [payload.sub] of a decoded token; an auth token
    carries neither (the empty string stands for [undefined]). *)
Definition payload_purpose (p : Payload) : string :=
  match p with
  | PurposePayload _ purpose => purpose
  | AuthTokenPayload _ _ _ _ => EmptyString
  end.

Definition payload_sub (p : Payload) : string :=
  match p with
  | PurposePayload sub _ => sub
  | AuthTokenPayload _ _ _ _ => EmptyString
  end.

(** [throw] of the result of [jwt.verify]. *)
Definition lift {A} (r : Exn + A) : M A := fun st => (st, r).

Definition rethrow_or {A} (error : Exn) (fallback : Exn) : M A :=
  match error with
  | AppError _ _ => throw error
  | _ => throw fallback
  end.

Section Service.

Context {bcrypt : Bcrypt}.

(** [user.verifyPassword(password)]. *)
Definition verifyPassword (user : User) (plain : string) : bool :=
  bcrypt_compare plain (password user).

(** [user.update({ password }, { transaction })]: nothing is sent when the
    value is unchanged; the model validates the length of the new value
    ([len: [6, 255]]) and the [beforeUpdate] hook hashes it. *)
Definition user_update_password (env : Env) (user : User)
           (newPassword : string) : M unit :=
  if String.eqb newPassword (password user) then ret tt
  else
    let n := Z.of_nat (String.length newPassword) in
    if (6 <=? n) && (n <=? 255)
    then stage (WUserPassword (user_id user)
                  (bcrypt_hash newPassword (rand_salt (random env))))
    else throw (Error "Validation error").

Definition login (env : Env) (email_ password_ : string) : M Body :=
  try_catch
    (db <- read ;;
     match User_findOne (login_where email_) db with
     | None => throw (AppError "INVALID_CREDENTIALS" 401)
     | Some user =>
         if negb (verifyPassword user password_)
         then throw (AppError "INVALID_CREDENTIALS" 401)
         else if status_eqb (status user) blocked
         then throw (AppError "ACCOUNT_BLOCKED" 403)
         else
           let (accessToken, refreshToken) := generateAuthTokens env user in
           ret (LoginData "Login successful"
                  (mkUserView (user_id user) (firstName user)
                     (lastName user) (email user) (role user)
                     (credits user) (emailVerified user))
                  accessToken refreshToken)
     end)
    (fun error => rethrow_or error (AppError "LOGIN_ERROR" 500)).

Definition refreshToken (env : Env) (refreshTokenString : Token) : M Body :=
  try_catch
    (decoded <- lift (jwt_verify (now env) refreshTokenString
                        (jwtSecret (config env))) ;;
     match decoded with
     | AuthTokenPayload id _ _ REFRESH =>
         db <- read ;;
         match User_findByPk id db with
         | None => throw (AppError "USER_NOT_FOUND" 404)
         | Some user =>
             let (accessToken, refreshToken) :=
               generateAuthTokens env user in
             ret (Tokens "Token refreshed successfully"
                    accessToken refreshToken)
         end
     | _ => throw (AppError "INVALID_TOKEN_TYPE" 401)
     end)
    (fun error => rethrow_or error (AppError "TOKEN_REFRESH_ERROR" 401)).

(** [sendMail] is not awaited: its promise, and any rejection of it, is
    dropped; it reaches neither the tables nor the response and has no
    counterpart here. *)
Definition forgotPassword (env : Env) (email_ : string) : M Body :=
  try_catch
    (db <- read_tx ;;
     let response :=
       Message "If the user exists, a password reset email has been sent" in
     match User_findOne (email_iLike email_) db with
     | None => transaction_commit env ;; ret response
     | Some user =>
         db <- read_tx ;;
         let recentAttempts :=
           OTP_count
             (where_recent (user_id user) password_reset
                (now env - RATE_LIMIT_WINDOW_MS)) db in
         if MAX_ATTEMPTS <=? recentAttempts
         then transaction_commit env ;; ret response
         else
           otpRecord <- OTP_createOTP env (user_id user) password_reset
                          (Some (mkOptions (Some OTP_EXPIRY_MINUTES)
                                   (Some (email user)) false (Some 6))) ;;
           transaction_commit env ;; ret response
     end)
    (fun error =>
       transaction_rollback ;;
       rethrow_or error (AppError "PASSWORD_RESET_ERROR" 500)).

(** The part of [verifyOtp] up to the record found. *)
Definition verifyOtp_find (env : Env) (email_ otp : string)
  : M (User * OTP) :=
  db <- read_tx ;;
  match User_findOne (email_iLike email_) db with
  | None => transaction_rollback ;; throw (AppError "INVALID_OTP" 400)
  | Some user =>
      db <- read_tx ;;
      match OTP_findOne_latest
              (where_code (user_id user) otp password_reset (now env))
              db with
      | None => transaction_rollback ;; throw (AppError "INVALID_OTP" 400)
      | Some otpRecord => ret (user, otpRecord)
      end
  end.

(** The rest of it: mark the record used, sign the reset token, commit. *)
Definition verifyOtp_consume (env : Env) (found : User * OTP) : M Body :=
  let (user, otpRecord) := found in
  stage (WOtpUsed (otp_id otpRecord)) ;;
  let resetToken :=
    jwt_sign (now env) (PurposePayload (user_id user) "password_reset")
             (jwtSecret (config env)) (JWT_EXPIRY_MINUTES * 60) in
  transaction_commit env ;; ret (ResetToken resetToken).

(** Its [catch] block: the rollback comes first, the test
    [error instanceof AppError] after it (the handler of [register] has
    them the other way round). *)
Definition verifyOtp_catch (error : Exn) : M Body :=
  transaction_rollback ;;
  rethrow_or error (AppError "OTP_VERIFICATION_ERROR" 500).

Definition verifyOtp (env : Env) (email_ otp : string) : M Body :=
  try_catch
    (found <- verifyOtp_find env email_ otp ;; verifyOtp_consume env found)
    verifyOtp_catch.

Definition resetPassword (env : Env) (resetToken : Token)
           (newPassword : string) : M Body :=
  try_catch
    (payload <- lift (jwt_verify (now env) resetToken
                        (jwtSecret (config env))) ;;
     if negb (String.eqb (payload_purpose payload) "password_reset")
     then transaction_rollback ;; throw (AppError "INVALID_TOKEN" 400)
     else
       db <- read_tx ;;
       match User_findByPk (payload_sub payload) db with
       | None =>
           transaction_rollback ;; throw (AppError "USER_NOT_FOUND" 404)
       | Some user =>
           if verifyPassword user newPassword
           then transaction_rollback ;;
                throw (AppError "SAME_PASSWORD" 400)
           else
             user_update_password env user newPassword ;;
             stage (WOtpsUsedWhere (user_id user) password_reset) ;;
             transaction_commit env ;;
             ret (Message "Password updated successfully")
       end)
    (fun error =>
       transaction_rollback ;;
       match error with
       | AppError _ _ => throw error
       | JsonWebTokenError _ => throw (AppError "INVALID_TOKEN" 401)
       | Error _ => throw (AppError "PASSWORD_RESET_ERROR" 500)
       end).

Definition requestEmailVerification (env : Env) (userId_ : string)
  : M Body :=
  try_catch
    (db <- read_tx ;;
     match User_findByPk userId_ db with
     | None => transaction_rollback ;; throw (AppError "USER_NOT_FOUND" 404)
     | Some user =>
         if emailVerified user
         then transaction_rollback ;;
              ret (Message "Email is already verified")
         else
           db <- read_tx ;;
           let recentAttempts :=
             OTP_count
               (where_recent (user_id user) email_verification
                  (now env - RATE_LIMIT_WINDOW_MS)) db in
           if MAX_ATTEMPTS <=? recentAttempts
           then transaction_rollback ;; throw (AppError "RATE_LIMITED" 429)
           else
             otpRecord <- OTP_createOTP env (user_id user)
                            email_verification
                            (Some (mkOptions (Some OTP_EXPIRY_MINUTES)
                                     (Some (email user)) false None)) ;;
             transaction_commit env ;;
             ret (Message "Verification code sent to your email")
     end)
    (fun error =>
       transaction_rollback ;;
       rethrow_or error (AppError "EMAIL_VERIFICATION_ERROR" 500)).

Definition verifyEmail (env : Env) (userId_ code_ : string) : M Body :=
  try_catch
    (db <- read_tx ;;
     match User_findByPk userId_ db with
     | None => transaction_rollback ;; throw (AppError "USER_NOT_FOUND" 404)
     | Some user =>
         if emailVerified user
         then transaction_rollback ;;
              ret (Message "Email is already verified")
         else
           db <- read_tx ;;
           match OTP_findOne
                   (where_code userId_ code_ email_verification (now env))
                   db with
           | None =>
               transaction_rollback ;; throw (AppError "INVALID_CODE" 400)
           | Some otpRecord =>
               stage (WOtpUsed (otp_id otpRecord)) ;;
               stage (WUserEmailVerified (user_id user)) ;;
               transaction_commit env ;;
               ret (Message "Email verified successfully")
           end
     end)
    (fun error =>
       transaction_rollback ;;
       rethrow_or error (AppError "EMAIL_VERIFICATION_ERROR" 500)).

Definition changePassword (env : Env) (userId_ : string)
           (currentPassword newPassword : string) : M Body :=
  try_catch
    (db <- read_tx ;;
     match User_findByPk userId_ db with
     | None => transaction_rollback ;; throw (AppError "USER_NOT_FOUND" 404)
     | Some user =>
         if negb (verifyPassword user currentPassword)
         then transaction_rollback ;;
              throw (AppError "INVALID_PASSWORD" 400)
         else if verifyPassword user newPassword
         then transaction_rollback ;;
              throw (AppError "SAME_PASSWORD" 400)
         else
           user_update_password env user newPassword ;;
           transaction_commit env ;;
           ret (Message "Password changed successfully")
     end)
    (fun error =>
       transaction_rollback ;;
       rethrow_or error (AppError "PASSWORD_CHANGE_ERROR" 500)).

End Service.

(* ===================================================================== *)
(** ** The HTTP layer ([auth.controller.ts], [error.middleware.ts])       *)
(* ===================================================================== *)

Record Response := mkResponse {
  http_status : Z;
  http_body : Body
}.

(** [errorHandler]: an [AppError] answers with its own status and message,
    anything else with 500 and a fixed message. *)
Definition errorHandler (err : Exn) : Response :=
  match err with
  | AppError message statusCode => mkResponse statusCode (Failure message)
  | _ => mkResponse 500 (Failure "Internal Server Error")
  end.

(** A controller wrapped in [catchAsync]: 200 with the data, or the error
    handed to [errorHandler]. *)
Definition respond (outcome : Exn + Body) : Response :=
  match outcome with
  | inr data => mkResponse 200 data
  | inl err => errorHandler err
  end.

(** The requests of [auth.routes.ts] that read or write credentials. *)
Inductive Request :=
| POST_login (email password : string)
| POST_refresh_token (refreshToken : Token)
| POST_forgot_password (email : string)
| POST_verify_otp (email code : string)
| POST_reset_password (resetToken : Token) (newPassword : string)
| POST_request_verification (userId : string)
| POST_verify_email (userId code : string)
| POST_change_password (userId currentPassword newPassword : string).

Section Server.

Context {bcrypt : Bcrypt}.

Definition service (env : Env) (req : Request) : M Body :=
  match req with
  | POST_login e p => login env e p
  | POST_refresh_token t => refreshToken env t
  | POST_forgot_password e => forgotPassword env e
  | POST_verify_otp e c => verifyOtp env e c
  | POST_reset_password t p => resetPassword env t p
  | POST_request_verification u => requestEmailVerification env u
  | POST_verify_email u c => verifyEmail env u c
  | POST_change_password u c n => changePassword env u c n
  end.

(** One request served alone: the tables afterwards and the response. *)
Definition handle (env : Env) (req : Request) (db : DB) : DB * Response :=
  let (db', outcome) := run (service env req) db in (db', respond outcome).

(** *** Two [verify-otp] requests in flight

    Each request owns a transaction and shares the committed tables.  A
    request advances in two moves, as the awaits of [verifyOtp] allow: the
    two lookups, then the update with its COMMIT. *)
Inductive Thread :=
| Arrived (email code : string)
| Found (tx : Transaction) (found : User * OTP)
| Answered (outcome : Exn + Body).

Definition advance (env : Env) (db : DB) (th : Thread) : DB * Thread :=
  match th with
  | Arrived e c =>
      match verifyOtp_find env e c (mkState db new_transaction) with
      | (st, inr found) => (committed st, Found (transaction st) found)
      | (st, inl error) =>
          let (st', outcome) := verifyOtp_catch error st in
          (committed st', Answered outcome)
      end
  | Found tx found =>
      let (st, outcome) :=
        try_catch (verifyOtp_consume env found) verifyOtp_catch
                  (mkState db tx) in
      (committed st, Answered outcome)
  | Answered _ => (db, th)
  end.

(** A schedule names, move after move, the request that advances:
    [false] the first (served under [env_a]), [true] the second (served
    under [env_b]). *)
Fixpoint interleave (env_a env_b : Env) (schedule : list bool)
         (db : DB) (a b : Thread) : DB * Thread * Thread :=
  match schedule with
  | [] => (db, a, b)
  | false :: rest =>
      let (db', a') := advance env_a db a in
      interleave env_a env_b rest db' a' b
  | true :: rest =>
      let (db', b') := advance env_b db b in
      interleave env_a env_b rest db' a b'
  end.

Definition succeeded (th : Thread) : bool :=
  match th with
  | Answered (inr (ResetToken _)) => true
  | _ => false
  end.

Definition failed (th : Thread) : bool :=
  match th with
  | Answered (inl _) => true
  | _ => false
  end.

End Server.

(* ===================================================================== *)
(** ** Histories                                                          *)
(* ===================================================================== *)

(** What may happen to the tables: an auth request is served, or one of the
    static methods of the OTP model is called directly. *)
Inductive Operation :=
| Serve (req : Request)
| Call_createOTP (u : string) (p : TOTPPurpose) (options : option Options)
| Call_verifyAndConsumeOTP (u c : string) (p : TOTPPurpose)
| Call_cleanupExpiredOTPs.

Section Histories.

Context {bcrypt : Bcrypt}.

Definition perform (env : Env) (op : Operation) (db : DB) : DB :=
  match op with
  | Serve req => fst (handle env req db)
  | Call_createOTP u p options =>
      mkDB (users db)
           (fst (createOTP (now env) (random env) u p options (otps db)))
  | Call_verifyAndConsumeOTP u c p =>
      mkDB (users db) (fst (verifyAndConsumeOTP (now env) u c p (otps db)))
  | Call_cleanupExpiredOTPs =>
      mkDB (users db) (fst (cleanupExpiredOTPs (now env) (otps db)))
  end.

(** [history t db]: [db] is reached from a database without OTP rows by
    operations performed one after the other, the last one at time [t],
    under a clock that never runs backwards. *)
Inductive history : Z -> DB -> Prop :=
| history_start t table : history t (mkDB table [])
| history_step t db env op :
    history t db -> t <= now env -> history (now env) (perform env op db).

End Histories.

(** At most one pending OTP per (user, purpose), at time [t]. *)
Definition at_most_one_pending (t : Z) (table : list OTP) : Prop :=
  forall u p, (List.length (filter (pending_for u p t) table) <= 1)%nat.

(* ===================================================================== *)
(** ** Vocabulary of the properties                                       *)
(* ===================================================================== *)


(** The only effects on the OTP table: rows are marked used, or
    [createOTP] runs. *)
Inductive otp_effect (t : Z) (table : list OTP) : list OTP -> Prop :=
| effect_mark f : otp_effect t table (update_used_where f table)
| effect_create rnd u p options :
    otp_effect t table (fst (createOTP t rnd u p options table)).

Definition rolled_back_twice : Exn :=
  Error "Transaction cannot be rolled back because it has been finished with state: rollback".

Definition committed_then_rolled_back : Exn :=
  Error "Transaction cannot be rolled back because it has been finished with state: commit".

Definition reset_token (env : Env) (u : User) : Token :=
  jwt_sign (now env) (PurposePayload (user_id u) "password_reset")
           (jwtSecret (config env)) (JWT_EXPIRY_MINUTES * 60).

Definition exactly_one_succeeds (a b : Thread) : bool :=
  (succeeded a && failed b) || (failed a && succeeded b).

Definition both_succeed (a b : Thread) : bool := succeeded a && succeeded b.

(** Both requests make their two moves. *)
Definition complete (schedule : list bool) : bool :=
  (count_occ bool_dec schedule false =? 2)%nat
  && (count_occ bool_dec schedule true =? 2)%nat.

(** One request is answered before the other arrives. *)
Definition serial (schedule : list bool) : bool :=
  match schedule with
  | [false; false; true; true] | [true; true; false; false] => true
  | _ => false
  end.

Definition login_data (env : Env) (user : User) : Body :=
  LoginData "Login successful"
    (mkUserView (user_id user) (firstName user) (lastName user)
       (email user) (role user) (credits user) (emailVerified user))
    (fst (generateAuthTokens env user)) (snd (generateAuthTokens env user)).

Definition generic_response : Body :=
  Message "If the user exists, a password reset email has been sent".

(** The options [forgotPassword] passes to [createOTP]. *)
Definition forgotPassword_options (u : User) : option Options :=
  Some (mkOptions (Some OTP_EXPIRY_MINUTES) (Some (email u)) false (Some 6)).

(** The end of [forgotPassword]: COMMIT, then the generic response; a
    rejected COMMIT is caught, and the [rollback] of the handler rejects in
    turn. *)
Definition commit_and_respond (env : Env) (db : DB) : DB * (Exn + Body) :=
  if commit_ok env
  then (db, inr generic_response)
  else (db, inl committed_then_rolled_back).

Definition recent_attempts (env : Env) (u : User) (p : TOTPPurpose) (db : DB)
  : Z :=
  OTP_count (where_recent (user_id u) p (now env - RATE_LIMIT_WINDOW_MS)) db.

Section AfterReset.

Context {bcrypt : Bcrypt}.

(** The tables after a successful reset by user [u]. *)
Definition after_reset (env : Env) (u : User) (newPassword : string)
           (db : DB) : DB :=
  apply_write
    (apply_write db
       (WUserPassword (user_id u)
          (bcrypt_hash newPassword (rand_salt (random env)))))
    (WOtpsUsedWhere (user_id u) password_reset).

End AfterReset.

(* ===================================================================== *)
(** ** Sample data                                                        *)
(* ===================================================================== *)

Module Sample.

Definition alice : User :=
  mkUser "USR-1" "Alice" "Archer" "alice@example.com" false
         (toy_hash "Secret123" "s") active role_user 50 None.

Definition bob : User :=
  mkUser "USR-2" "Bob" "Baker" "bob@example.com" false
         (toy_hash "Hunter22x" "s") blocked role_user 50 None.

Definition carol : User :=
  mkUser "USR-3" "Carol" "Cook" "carol@example.com" false
         (toy_hash "Passw0rdX" "s") inactive role_user 50 None.

Definition at_ (t : Z) : Env :=
  mkEnv (mkConfig "jwt-secret") t (mkRandom 123456789 [] "s") true.

Definition commit_fails_at (t : Z) : Env :=
  mkEnv (mkConfig "jwt-secret") t (mkRandom 123456789 [] "s") false.

(** Three users, no OTP yet. *)
Definition db0 : DB := mkDB [alice; bob; carol] [].

(** After Alice asked for a password reset at time 1000; her code is
    ["256789"], valid for ten minutes. *)
Definition db1 : DB :=
  perform (bcrypt := toy_bcrypt) (at_ 1000)
          (Serve (POST_forgot_password "Alice@Example.com")) db0.

(** After that code was consumed at time 2000. *)
Definition db2 : DB :=
  perform (bcrypt := toy_bcrypt) (at_ 2000)
          (Serve (POST_verify_otp "alice@example.com" "256789")) db1.

Definition alice_reset_token : Token :=
  jwt_sign 2000 (PurposePayload "USR-1" "password_reset") "jwt-secret" 900.

(** Three verification codes issued to Alice within a quarter of an
    hour. *)
Definition db_limited (p : TOTPPurpose) : DB :=
  mkDB [alice; bob; carol]
       [mkOTP 1 "USR-1" "11111111" p 601000 true None 1000;
        mkOTP 2 "USR-1" "22222222" p 602000 true None 2000;
        mkOTP 3 "USR-1" "33333333" p 603000 false None 3000].

End Sample.

(* ===================================================================== *)
(** ** More of the service, and the authentication middleware             *)
(* ===================================================================== *)

Definition user_view (user : User) : UserView :=
  mkUserView (user_id user) (firstName user) (lastName user) (email user)
             (role user) (credits user) (emailVerified user).

(** [verifyAuthToken(token)]: the message and the user it answers with.
    An absent or empty token is [None]. *)
Definition verifyAuthToken (env : Env) (token : option Token)
  : M (string * UserView) :=
  try_catch
    (match token with
     | None => throw (AppError "NO_TOKEN" 401)
     | Some token =>
         decoded <- lift (jwt_verify (now env) token
                            (jwtSecret (config env))) ;;
         match decoded with
         | AuthTokenPayload id _ _ ACCESS =>
             db <- read ;;
             match User_findByPk id db with
             | None => throw (AppError "USER_NOT_FOUND" 404)
             | Some user => ret ("Token is valid", user_view user)
             end
         | _ => throw (AppError "INVALID_TOKEN_TYPE" 401)
         end
     end)
    (fun error =>
       match error with
       | JsonWebTokenError _ => throw (AppError "INVALID_TOKEN" 401)
       | AppError _ _ => throw error
       | Error _ => throw (AppError "TOKEN_VERIFICATION_ERROR" 500)
       end).

(** [logout(token)] and [logoutAll(userId)]: a message, nothing else. *)
Definition logout (token : option Token) : M Body :=
  try_catch (ret (Message "Logout successful"))
            (fun _ => throw (AppError "LOGOUT_ERROR" 500)).

Definition logoutAll (userId_ : string) : M Body :=
  try_catch (ret (Message "Logged out from all devices"))
            (fun _ => throw (AppError "LOGOUT_ALL_ERROR" 500)).

(** What the middleware [Auth(requiredRole, auth)] does with a request: it
    answers itself, or calls [next()], with [req.payload] set or not. *)
Inductive Passage :=
| Rejected (status : Z) (message : string)
| Next (payload : option Payload).

Definition role_name (r : TUserRole) : string :=
  match r with role_user => "user" | role_admin => "admin" end.

(** [decoded.role]. *)
Definition payload_role (p : Payload) : option string :=
  match p with
  | AuthTokenPayload _ _ r _ => Some (role_name r)
  | PurposePayload _ _ => None
  end.

Definition role_matches (decoded : Payload) (requiredRole : string) : bool :=
  match payload_role decoded with
  | Some r => String.eqb r requiredRole
  | None => false
  end.

(** [Auth(requiredRole, auth)].  [authorization] is the second word of the
    Authorization header and [cookie] is [req.cookies?.auth], each [None]
    when absent or empty. *)
Definition Auth (requiredRole : option string) (auth : bool) (env : Env)
           (authorization cookie : option Token) : Passage :=
  let token :=
    match authorization with Some t => Some t | None => cookie end in
  match token with
  | None =>
      if auth then Rejected 401 "Unauthorized: No valid token provided"
      else Next None
  | Some token =>
      match jwt_verify (now env) token (jwtSecret (config env)) with
      | inr decoded =>
          match requiredRole with
          | Some (String c r) =>
              if negb (role_matches decoded (String c r))
              then Rejected 403 "Forbidden: Insufficient permissions"
              else Next (Some decoded)
          | _ => Next (Some decoded)
          end
      | inl _ =>
          if auth then Rejected 401 "Unauthorized: Invalid token"
          else Next None
      end
  end.

(** The three middlewares the routes are built with. *)
Definition isAuthenticated := Auth None false.
Definition isAdmin := Auth None false.
Definition isAuthOrUnAuth := Auth None false.

(** [req.payload.id]. *)
Definition payload_id (p : Payload) : option string :=
  match p with
  | AuthTokenPayload id _ _ _ => Some id
  | PurposePayload _ _ => None
  end.

(** The error of reading [req.payload.id] when no payload was set. *)
Definition no_payload : Exn :=
  Error "Cannot read properties of undefined (reading 'id')".

Section Routes.

Context {bcrypt : Bcrypt}.

(** [requestEmailVerification(undefined)]: [findByPk] of no key finds no
    row. *)
Definition requestEmailVerification_no_id : M Body :=
  try_catch
    (transaction_rollback ;; throw (AppError "USER_NOT_FOUND" 404))
    (fun error =>
       transaction_rollback ;;
       rethrow_or error (AppError "EMAIL_VERIFICATION_ERROR" 500)).

(** [POST /api/v1/auth/request-verification]: the root router's
    [isAuthOrUnAuth], the route's [isAuthenticated], then the
    controller. *)
Definition POST_auth_request_verification (env : Env)
           (authorization cookie : option Token) (db : DB) : DB * Response :=
  match isAuthOrUnAuth env authorization cookie with
  | Rejected status message => (db, mkResponse status (Message message))
  | Next _ =>
      match isAuthenticated env authorization cookie with
      | Rejected status message => (db, mkResponse status (Message message))
      | Next None => (db, errorHandler no_payload)
      | Next (Some payload) =>
          match payload_id payload with
          | Some id => handle env (POST_request_verification id) db
          | None =>
              let (db', outcome) := run requestEmailVerification_no_id db in
              (db', respond outcome)
          end
      end
  end.

End Routes.

(** The options [requestEmailVerification] passes to [createOTP]. *)
Definition verification_options (u : User) : option Options :=
  Some (mkOptions (Some OTP_EXPIRY_MINUTES) (Some (email u)) false None).

(** An address without the pattern characters of [LIKE]. *)
Fixpoint plain (s : string) : bool :=
  match s with
  | EmptyString => true
  | String c s' =>
      negb (Ascii.eqb c "%") && negb (Ascii.eqb c "_")
      && negb (Ascii.eqb c "\") && plain s'
  end.

(** The rows of (u, p) created in the quarter of an hour that ends at
    [t]. *)
Definition issued_in_window (u : string) (p : TOTPPurpose) (t : Z)
           (table : list OTP) : nat :=
  List.length
    (filter (fun o => where_recent u p (t - RATE_LIMIT_WINDOW_MS) o
                      && (createdAt o <=? t)) table).

(** Histories of served requests only: no direct call of the model. *)
Inductive served `{Bcrypt} : Z -> DB -> Prop :=
| served_start t table : served t (mkDB table [])
| served_step t db env req :
    served t db -> t <= now env ->
    served (now env) (fst (handle env req db)).

(** The rows the rate limit counts for (u, p) at time [t]. *)
Definition issued_recently (u : string) (p : TOTPPurpose) (t : Z)
           (table : list OTP) : nat :=
  List.length (filter (where_recent u p (t - RATE_LIMIT_WINDOW_MS)) table).

(** What a served request does to the OTP table: it marks rows used, or
    it runs [createOTP] below the rate limit. *)
Inductive served_effect (env : Env) (table : list OTP) : list OTP -> Prop :=
| served_mark f : served_effect env table (update_used_where f table)
| served_create u p options :
    Z.of_nat (issued_recently u p (now env) table) < MAX_ATTEMPTS ->
    served_effect env table
      (fst (createOTP (now env) (random env) u p options table)).

(* ===================================================================== *)
(** ** Vocabulary of the further properties                               *)
(* ===================================================================== *)

Definition is_digit (c : ascii) : bool :=
  let n := N_of_ascii c in ((48 <=? n) && (n <=? 57))%N.

Definition first_char (s : string) : option ascii :=
  match s with
  | String c _ => Some c
  | EmptyString => None
  end.

(** A decimal numeral that starts with a digit other than 0. *)
Definition leading_nonzero (d : Decimal.uint) : Prop :=
  match d with
  | Decimal.Nil | Decimal.D0 _ => False
  | _ => True
  end.

(** The byte values 0 .. 255. *)
Definition all_bytes : list Z := map Z.of_nat (seq 0 256).

(** How many byte values make [generateAlphanumericCode] pick [c]. *)
Definition bytes_yielding (c : ascii) : nat :=
  List.length
    (filter (fun b => String.eqb (generateAlphanumericCode [b] 1)
                                 (String c EmptyString))
            all_bytes).

(** The columns of an account that no request of the auth API writes:
    all but the password hash and [emailVerified]. *)
Definition same_account (u u' : User) : Prop :=
  user_id u' = user_id u /\ firstName u' = firstName u
  /\ lastName u' = lastName u /\ email u' = email u
  /\ status u' = status u /\ role u' = role u
  /\ credits u' = credits u /\ user_deletedAt u' = user_deletedAt u.

Section ServeAll.

Context {bcrypt : Bcrypt}.

(** Requests served one after the other, each with its own clock value
    and randomness. *)
Definition serve_all (requests : list (Env * Request)) (db : DB) : DB :=
  fold_left (fun db r => fst (handle (fst r) (snd r) db)) requests db.

End ServeAll.

(* ===================================================================== *)
(** ** Properties of the OTP table                                        *)
(* ===================================================================== *)

(** Induction on the length of a string. *)
Lemma string_strong_ind (P : string -> Prop) :
  P EmptyString ->
  (forall c s,
      (forall s', (String.length s' <= String.length s)%nat -> P s') ->
      P (String c s)) ->
  forall s, P s.
Proof.
  intros Hnil Hcons s.
  assert (H : forall n s', (String.length s' <= n)%nat -> P s').
  { induction n as [|n IHn]; intros [|c s'] Hlen; simpl in Hlen;
      try exact Hnil; try lia.
    apply Hcons. intros s'' Hs''. apply IHn. lia. }
  exact (H (String.length s) s (le_n _)).
Qed.

Lemma purpose_eqb_eq a b : purpose_eqb a b = true <-> a = b.
Proof. destruct a, b; simpl; split; congruence. Qed.

Lemma purpose_eqb_refl a : purpose_eqb a a = true.
Proof. now destruct a. Qed.

Example iLike_case : Str.iLike "Alice@Example.COM" "alice@example.com" = true.
Proof. reflexivity. Qed.

Example iLike_underscore : Str.iLike "a_c@x.io" "abc@x.io" = true.
Proof. reflexivity. Qed.

Example iLike_percent : Str.iLike "%@x.io" "abc@x.io" = true.
Proof. reflexivity. Qed.

Example iLike_quoted : Str.iLike "a\_c@x.io" "abc@x.io" = false.
Proof. reflexivity. Qed.

(** A pattern that matches has no dangling escape. *)
Lemma iLike_not_dangling pattern : forall text,
  Str.iLike pattern text = true -> Str.dangling_escape pattern = false.
Proof.
  induction pattern as [|p pattern IH] using string_strong_ind; intros text H;
    [reflexivity|].
  simpl in H |- *.
  destruct (Ascii.eqb p "%") eqn:Hp.
  - apply Ascii.eqb_eq in Hp. subst p. simpl.
    revert H. induction text as [|c text IHt]; intros H.
    + rewrite orb_false_r in H. exact (IH pattern (le_n _) _ H).
    + apply orb_prop in H. destruct H as [H|H];
        [exact (IH pattern (le_n _) _ H)|exact (IHt H)].
  - destruct (Ascii.eqb p "_") eqn:Hu.
    + apply Ascii.eqb_eq in Hu. subst p. simpl.
      destruct text as [|c text]; [discriminate|].
      exact (IH pattern (le_n _) _ H).
    + destruct (Ascii.eqb p "\") eqn:He.
      * destruct pattern as [|q pattern']; [discriminate|].
        destruct text as [|c text]; [discriminate|].
        apply andb_prop in H. destruct H as [_ H].
        exact (IH pattern' (le_S _ _ (le_n _)) _ H).
      * destruct text as [|c text]; [discriminate|].
        apply andb_prop in H. destruct H as [_ H].
        exact (IH pattern (le_n _) _ H).
Qed.

Example generateNumericCode_6 : generateNumericCode 4294967295 6 = "267295".
Proof. reflexivity. Qed.

Example generateAlphanumericCode_3 :
  generateAlphanumericCode [0; 35; 36] 3 = "A9A".
Proof. reflexivity. Qed.

Lemma pending_set_used t o : pending t (set_used o) = false.
Proof. reflexivity. Qed.

Lemma pending_for_set_used u p t o : pending_for u p t (set_used o) = false.
Proof. unfold pending_for. rewrite pending_set_used. apply andb_false_r. Qed.

(** Time only retires pending codes. *)
Lemma pending_for_earlier u p t t' o :
  t <= t' -> pending_for u p t' o = true -> pending_for u p t o = true.
Proof.
  unfold pending_for, pending. intros Ht H.
  apply andb_prop in H. destruct H as [Hup H].
  apply andb_prop in H. destruct H as [Hused H].
  rewrite Hup, Hused. simpl.
  apply Z.ltb_lt. apply Z.ltb_lt in H. lia.
Qed.

Lemma filter_length_le {A} (f g : A -> bool) (l : list A) :
  (forall x, f x = true -> g x = true) ->
  (List.length (filter f l) <= List.length (filter g l))%nat.
Proof.
  intros Hfg. induction l as [|x l IH]; simpl; [lia|].
  destruct (f x) eqn:Hf.
  - rewrite (Hfg x Hf). simpl. lia.
  - destruct (g x); simpl; lia.
Qed.

Lemma at_most_one_pending_later t t' table :
  t <= t' -> at_most_one_pending t table -> at_most_one_pending t' table.
Proof.
  intros Ht H u p. specialize (H u p).
  pose proof (filter_length_le (pending_for u p t') (pending_for u p t) table
                (fun o => pending_for_earlier u p t t' o Ht)).
  lia.
Qed.

(** Marking rows used never adds a pending row. *)
Lemma filter_pending_update_used_where u p t f table :
  (List.length (filter (pending_for u p t) (update_used_where f table))
   <= List.length (filter (pending_for u p t) table))%nat.
Proof.
  unfold update_used_where.
  induction table as [|o table IH]; simpl; [lia|].
  destruct (f o).
  - rewrite pending_for_set_used. destruct (pending_for u p t o); simpl; lia.
  - destruct (pending_for u p t o); simpl; lia.
Qed.

(** The invalidating update of [createOTP] leaves no pending row behind for
    the pair it is issued for. *)
Lemma filter_pending_invalidated u p t table :
  filter (pending_for u p t) (update_used_where (pending_for u p t) table)
  = [].
Proof.
  unfold update_used_where.
  induction table as [|o table IH]; simpl; [reflexivity|].
  destruct (pending_for u p t o) eqn:Ho.
  - rewrite pending_for_set_used. exact IH.
  - rewrite Ho. exact IH.
Qed.

Lemma update_used_where_length f table :
  List.length (update_used_where f table) = List.length table.
Proof. apply length_map. Qed.

Lemma update_used_where_none table :
  update_used_where (fun _ => false) table = table.
Proof. unfold update_used_where. apply map_id. Qed.

Lemma nth_error_update_used_where f table i o :
  nth_error table i = Some o ->
  nth_error (update_used_where f table) i
  = Some (if f o then set_used o else o).
Proof.
  intros H. unfold update_used_where. rewrite nth_error_map, H. reflexivity.
Qed.


Lemma createOTP_table t rnd u p options table :
  fst (createOTP t rnd u p options table)
  = (update_used_where (pending_for u p t) table
     ++ [snd (createOTP t rnd u p options table)])%list.
Proof. reflexivity. Qed.

Lemma createOTP_row t rnd u p options table :
  let otp := snd (createOTP t rnd u p options table) in
  userId otp = u /\ purpose otp = p /\ used otp = false /\ createdAt otp = t.
Proof. simpl. repeat split. Qed.

(** After [createOTP] the pending rows of the pair are the new row, or none
    when its lifetime is not positive. *)
Lemma createOTP_pending_le t rnd u p options table u' p' :
  at_most_one_pending t table ->
  (List.length
     (filter (pending_for u' p' t) (fst (createOTP t rnd u p options table)))
   <= 1)%nat.
Proof.
  intros Hinv. rewrite createOTP_table, filter_app, length_app.
  set (otp := snd (createOTP t rnd u p options table)).
  destruct (pending_for u' p' t otp) eqn:Hnew.
  - (* the new row is pending for (u', p'): then (u', p') = (u, p) *)
    assert (u' = u /\ p' = p) as [-> ->].
    { unfold pending_for in Hnew.
      apply andb_prop in Hnew. destruct Hnew as [Hnew _].
      apply andb_prop in Hnew. destruct Hnew as [Hu Hp].
      apply String.eqb_eq in Hu. apply purpose_eqb_eq in Hp.
      destruct (createOTP_row t rnd u p options table) as (Hu' & Hp' & _).
      fold otp in Hu', Hp'. split; congruence. }
    rewrite filter_pending_invalidated. simpl. rewrite Hnew. simpl. lia.
  - simpl. rewrite Hnew. simpl.
    pose proof (filter_pending_update_used_where u' p' t (pending_for u p t)
                  table).
    specialize (Hinv u' p'). lia.
Qed.

(* ===================================================================== *)
(** ** What the workflows do to the tables                                *)
(* ===================================================================== *)

Lemma effect_none t table : otp_effect t table table.
Proof.
  rewrite <- (update_used_where_none table) at 2. apply effect_mark.
Qed.

Create HintDb effects.
#[export] Hint Resolve effect_none effect_mark effect_create : effects.

Ltac unfold_workflow :=
  unfold run, try_catch, bind, ret, throw, read, read_tx, stage, lift,
    rethrow_or, transaction_commit, transaction_rollback, OTP_createOTP,
    visible, new_transaction;
  simpl.

Ltac case_split :=
  match goal with
  | |- context [match ?x with _ => _ end] =>
      lazymatch x with
      | context [match _ with _ => _ end] => fail
      | _ => destruct x eqn:?; simpl
      end
  end.

Section Effects.

Context {bcrypt : Bcrypt}.

Lemma login_effect env e pw db : fst (run (login env e pw) db) = db.
Proof.
  unfold login. unfold_workflow. repeat case_split; reflexivity.
Qed.

Lemma refreshToken_effect env t db : fst (run (refreshToken env t) db) = db.
Proof.
  unfold refreshToken. unfold_workflow. repeat case_split; reflexivity.
Qed.

Lemma forgotPassword_effect env e db :
  otp_effect (now env) (otps db)
             (otps (fst (run (forgotPassword env e) db))).
Proof.
  unfold forgotPassword. unfold_workflow.
  repeat case_split; auto with effects;
    match goal with
    | u : User |- _ =>
        exact (effect_create (now env) (otps db) (random env) (user_id u)
                 password_reset
                 (Some (mkOptions (Some OTP_EXPIRY_MINUTES)
                          (Some (email u)) false (Some 6))))
    end.
Qed.

Lemma requestEmailVerification_effect env u db :
  otp_effect (now env) (otps db)
             (otps (fst (run (requestEmailVerification env u) db))).
Proof.
  unfold requestEmailVerification. unfold_workflow.
  repeat case_split; auto with effects;
    match goal with
    | u : User |- _ =>
        exact (effect_create (now env) (otps db) (random env) (user_id u)
                 email_verification
                 (Some (mkOptions (Some OTP_EXPIRY_MINUTES)
                          (Some (email u)) false None)))
    end.
Qed.

Lemma verifyOtp_effect env e c db :
  otp_effect (now env) (otps db) (otps (fst (run (verifyOtp env e c) db))).
Proof.
  unfold verifyOtp, verifyOtp_find, verifyOtp_consume, verifyOtp_catch.
  unfold_workflow. repeat case_split; auto with effects.
Qed.

Lemma verifyEmail_effect env u c db :
  otp_effect (now env) (otps db) (otps (fst (run (verifyEmail env u c) db))).
Proof.
  unfold verifyEmail. unfold_workflow.
  repeat case_split; auto with effects.
Qed.

Lemma resetPassword_effect env t pw db :
  otp_effect (now env) (otps db)
             (otps (fst (run (resetPassword env t pw) db))).
Proof.
  unfold resetPassword, user_update_password. unfold_workflow.
  repeat case_split; auto with effects.
Qed.

Lemma changePassword_effect env u c n db :
  otps (fst (run (changePassword env u c n) db)) = otps db.
Proof.
  unfold changePassword, user_update_password. unfold_workflow.
  repeat case_split; reflexivity.
Qed.

Lemma perform_effect env op db :
  otp_effect (now env) (otps db) (otps (perform env op db)).
Proof.
  destruct op as [req|u p options|u c p|]; cbn [perform otps].
  - unfold handle.
    destruct (run (service env req) db) as [db' outcome] eqn:E.
    change db' with (fst (db', outcome)). rewrite <- E.
    destruct req; simpl.
    + rewrite login_effect. auto with effects.
    + rewrite refreshToken_effect. auto with effects.
    + apply forgotPassword_effect.
    + apply verifyOtp_effect.
    + apply resetPassword_effect.
    + apply requestEmailVerification_effect.
    + apply verifyEmail_effect.
    + rewrite changePassword_effect. auto with effects.
  - auto with effects.
  - unfold verifyAndConsumeOTP.
    destruct (verifyOTP (now env) u c p (otps db)); cbn [fst];
      auto with effects.
    unfold markAsUsed. auto with effects.
  - unfold cleanupExpiredOTPs. cbn [fst]. auto with effects.
Qed.

(** An effect keeps the invariant. *)
Lemma otp_effect_at_most_one t table table' :
  otp_effect t table table' ->
  at_most_one_pending t table -> at_most_one_pending t table'.
Proof.
  intros [f|rnd u p options] Hinv u' p'.
  - pose proof (filter_pending_update_used_where u' p' t f table).
    specialize (Hinv u' p'). lia.
  - now apply createOTP_pending_le.
Qed.

Lemma history_at_most_one t db :
  history t db -> at_most_one_pending t (otps db).
Proof.
  induction 1 as [t users_|t db env op _ IH Ht].
  - intros u p. simpl. lia.
  - apply (otp_effect_at_most_one _ (otps db)).
    + apply perform_effect.
    + now apply (at_most_one_pending_later t).
Qed.

(** An effect never clears a [used] flag: row by row, the key is kept and
    a used row stays used. *)
Lemma otp_effect_used t table table' i o :
  otp_effect t table table' ->
  nth_error table i = Some o ->
  exists o', nth_error table' i = Some o'
             /\ otp_id o' = otp_id o
             /\ (used o = true -> used o' = true).
Proof.
  intros Heff Hi.
  assert (Hmark : forall f,
             exists o', nth_error (update_used_where f table) i = Some o'
                        /\ otp_id o' = otp_id o
                        /\ (used o = true -> used o' = true)).
  { intros f. rewrite (nth_error_update_used_where f table i o Hi).
    eexists. split; [reflexivity|]. destruct (f o); simpl; auto. }
  destruct Heff as [f|rnd u p options]; [apply Hmark|].
  rewrite createOTP_table, nth_error_app1.
  - apply Hmark.
  - rewrite update_used_where_length. apply nth_error_Some. congruence.
Qed.

End Effects.

(* ===================================================================== *)
(** ** The OTP engine: one pending code per user and purpose              *)
(* ===================================================================== *)

Section OnePending.

Context {bcrypt : Bcrypt}.


End OnePending.


(* ===================================================================== *)
(** ** Consuming a code ([verifyOtp])                                     *)
(* ===================================================================== *)

Lemma fold_left_latest_In l : forall acc o,
  fold_left latest l acc = Some o -> In o l \/ acc = Some o.
Proof.
  induction l as [|x l IH]; simpl; intros acc o H; [now right|].
  destruct (IH _ _ H) as [Hin|Hacc]; [now left; right|].
  destruct acc as [best|]; simpl in Hacc.
  - destruct (createdAt best <? createdAt x).
    + left; left. congruence.
    + now right.
  - left; left. congruence.
Qed.

Lemma fold_left_latest_None l : forall acc,
  fold_left latest l acc = None -> l = [] /\ acc = None.
Proof.
  induction l as [|x l IH]; simpl; intros acc H; [now split|].
  destruct (IH _ H) as [_ Hacc].
  destruct acc as [best|]; simpl in Hacc; [|discriminate].
  destruct (createdAt best <? createdAt x); discriminate.
Qed.

Lemma OTP_findOne_latest_Some w db o :
  OTP_findOne_latest w db = Some o -> In o (otps db) /\ w o = true.
Proof.
  unfold OTP_findOne_latest. intros H.
  destruct (fold_left_latest_In _ _ _ H) as [Hin|]; [|discriminate].
  now apply filter_In in Hin.
Qed.

Lemma OTP_findOne_latest_None w db :
  OTP_findOne_latest w db = None ->
  forall o, In o (otps db) -> w o = false.
Proof.
  unfold OTP_findOne_latest. intros H o Hin.
  destruct (fold_left_latest_None _ _ H) as [Hnil _].
  destruct (w o) eqn:Hw; [|reflexivity].
  assert (In o (filter w (otps db))) as Hf by (apply filter_In; now split).
  rewrite Hnil in Hf. destruct Hf.
Qed.

Lemma OTP_findOne_latest_empty w db :
  (forall o, In o (otps db) -> w o = false) ->
  OTP_findOne_latest w db = None.
Proof.
  intros H. unfold OTP_findOne_latest.
  destruct (filter w (otps db)) as [|o l] eqn:E; [reflexivity|].
  assert (In o (filter w (otps db))) as Hin by (rewrite E; now left).
  apply filter_In in Hin. destruct Hin as [Hin Hw].
  rewrite (H o Hin) in Hw. discriminate.
Qed.

(** Two distinct rows passing a filter make it at least two long. *)
Lemma filter_two {A} (f : A -> bool) (l : list A) a b :
  In a l -> In b l -> a <> b -> f a = true -> f b = true ->
  (2 <= List.length (filter f l))%nat.
Proof.
  intros Ha Hb Hab Hfa Hfb.
  assert (Hone : forall x l', In x l' -> f x = true ->
                              (1 <= List.length (filter f l'))%nat).
  { intros x l' Hx Hfx.
    assert (In x (filter f l')) as Hin by (apply filter_In; now split).
    destruct (filter f l'); [destruct Hin | simpl; lia]. }
  induction l as [|x l IH]; [destruct Ha|].
  simpl. destruct Ha as [->|Ha], Hb as [->|Hb].
  - contradiction.
  - rewrite Hfa. simpl. pose proof (Hone b l Hb Hfb). lia.
  - rewrite Hfb. simpl. pose proof (Hone a l Ha Hfa). lia.
  - specialize (IH Ha Hb). destruct (f x); simpl; lia.
Qed.

(** A row the lookup accepts at [t'] was pending at any earlier [t]. *)
Lemma where_code_pending u c p t t' o :
  t <= t' -> where_code u c p t' o = true -> pending_for u p t o = true.
Proof.
  unfold where_code, pending_for, pending. intros Ht H.
  apply andb_prop in H. destruct H as [H Hused].
  apply andb_prop in H. destruct H as [H Hexp].
  apply andb_prop in H. destruct H as [H Hp].
  apply andb_prop in H. destruct H as [Hu _].
  rewrite Hu, Hp, Hused. simpl.
  apply Z.ltb_lt. apply Z.ltb_lt in Hexp. lia.
Qed.

Section VerifyOtp.

Context {bcrypt : Bcrypt}.

(** The lookups of [verifyOtp], on untouched tables. *)
Lemma verifyOtp_find_run env e c db :
  verifyOtp_find env e c (mkState db new_transaction)
  = match User_findOne (email_iLike e) db with
    | None => (mkState db (mkTransaction (Some rollback) []),
               inl (AppError "INVALID_OTP" 400))
    | Some u =>
        match OTP_findOne_latest
                (where_code (user_id u) c password_reset (now env)) db with
        | None => (mkState db (mkTransaction (Some rollback) []),
                   inl (AppError "INVALID_OTP" 400))
        | Some o => (mkState db new_transaction, inr (u, o))
        end
    end.
Proof.
  unfold verifyOtp_find. unfold_workflow.
  destruct (User_findOne (email_iLike e) db) as [u|]; [|reflexivity].
  simpl.
  destruct (OTP_findOne_latest _ db); reflexivity.
Qed.

Lemma verifyOtp_run env e c db :
  run (verifyOtp env e c) db
  = match User_findOne (email_iLike e) db with
    | None => (db, inl rolled_back_twice)
    | Some u =>
        match OTP_findOne_latest
                (where_code (user_id u) c password_reset (now env)) db with
        | None => (db, inl rolled_back_twice)
        | Some o =>
            if commit_ok env
            then (apply_write db (WOtpUsed (otp_id o)),
                  inr (ResetToken (reset_token env u)))
            else (db, inl committed_then_rolled_back)
        end
    end.
Proof.
  unfold run, verifyOtp, try_catch, bind at 1.
  rewrite verifyOtp_find_run.
  destruct (User_findOne (email_iLike e) db) as [u|]; [|reflexivity].
  destruct (OTP_findOne_latest _ db) as [o|]; [|reflexivity].
  unfold verifyOtp_consume, verifyOtp_catch. unfold_workflow.
  destruct (commit_ok env); reflexivity.
Qed.

(** Once its record is consumed, the same (email, code) finds nothing:
    under the one-pending invariant no other row can answer for it. *)
Lemma consumed_not_found t env env' c db u o :
  at_most_one_pending t (otps db) ->
  t <= now env -> t <= now env' ->
  OTP_findOne_latest (where_code (user_id u) c password_reset (now env)) db
  = Some o ->
  OTP_findOne_latest (where_code (user_id u) c password_reset (now env'))
                     (apply_write db (WOtpUsed (otp_id o)))
  = None.
Proof.
  intros Hinv Ht Ht' Hfound.
  apply OTP_findOne_latest_Some in Hfound. destruct Hfound as [Hin Hw].
  apply OTP_findOne_latest_empty. intros o2 Hin2.
  destruct (where_code (user_id u) c password_reset (now env') o2) eqn:Hw2;
    [exfalso|reflexivity].
  simpl in Hin2. unfold update_used_where in Hin2.
  apply in_map_iff in Hin2. destruct Hin2 as (o1 & Ho2 & Hin1).
  destruct (N.eqb (otp_id o1) (otp_id o)) eqn:Hid; subst o2.
  - unfold where_code in Hw2. simpl in Hw2.
    rewrite andb_false_r in Hw2. discriminate.
  - assert (o1 <> o) as Hneq.
    { intros ->. rewrite N.eqb_refl in Hid. discriminate. }
    pose proof (filter_two (pending_for (user_id u) password_reset t)
                  (otps db) o1 o Hin1 Hin Hneq
                  (where_code_pending _ _ _ _ _ _ Ht' Hw2)
                  (where_code_pending _ _ _ _ _ _ Ht Hw)) as Htwo.
    specialize (Hinv (user_id u) password_reset). lia.
Qed.

End VerifyOtp.

(* ===================================================================== *)
(** ** A consumed code is not consumed again                              *)
(* ===================================================================== *)

Section Consumption.

Context {bcrypt : Bcrypt}.

Lemma handle_verify_otp env e c db :
  handle env (POST_verify_otp e c) db
  = (fst (run (verifyOtp env e c) db),
     respond (snd (run (verifyOtp env e c) db))).
Proof.
  unfold handle. simpl. destruct (run (verifyOtp env e c) db). reflexivity.
Qed.

(** C8.  In a database reached by a history of requests, after a
    [verify-otp] request consumed a code, a later request with the same
    (email, code) fails and changes nothing; the service rejects with the
    error of its second [rollback], which the error handler answers with
    500 "Internal Server Error" (not with 400 INVALID_OTP).  No operation
    ever clears a [used] flag. *)
Theorem consumed_otp_second_request :
  forall t env env' db e c db' tok,
    history t db -> t <= now env -> now env <= now env' ->
    handle env (POST_verify_otp e c) db
    = (db', mkResponse 200 (ResetToken tok)) ->
    run (verifyOtp env' e c) db' = (db', inl rolled_back_twice)
    /\ handle env' (POST_verify_otp e c) db'
       = (db', mkResponse 500 (Failure "Internal Server Error"))
    /\ (forall env'' op i o,
           nth_error (otps db') i = Some o -> used o = true ->
           exists o', nth_error (otps (perform env'' op db')) i = Some o'
                      /\ otp_id o' = otp_id o /\ used o' = true).
Proof.
  intros t env env' db e c db' tok Hhist Ht Ht' Hfirst.
  assert (Hsecond : run (verifyOtp env' e c) db'
                    = (db', inl rolled_back_twice)).
  { rewrite handle_verify_otp, verifyOtp_run in Hfirst.
    destruct (User_findOne (email_iLike e) db) as [u|] eqn:Hu;
      [|discriminate].
    destruct (OTP_findOne_latest _ db) as [o|] eqn:Ho; [|discriminate].
    destruct (commit_ok env); [|discriminate].
    assert (Hdb : db' = apply_write db (WOtpUsed (otp_id o)))
      by (cbn [fst snd respond] in Hfirst; congruence).
    subst db'.
    rewrite verifyOtp_run.
    replace (User_findOne (email_iLike e)
               (apply_write db (WOtpUsed (otp_id o))))
      with (User_findOne (email_iLike e) db) by reflexivity.
    rewrite Hu.
    rewrite (consumed_not_found t env env' c db u o); try lia; auto.
    now apply history_at_most_one. }
  split; [exact Hsecond|]. split.
  - rewrite handle_verify_otp, Hsecond. reflexivity.
  - intros env'' op i o Hi Hused.
    destruct (otp_effect_used (now env'') (otps db')
                (otps (perform env'' op db')) i o
                (perform_effect env'' op db') Hi) as (o' & Hi' & Hid & Hu').
    exists o'. auto.
Qed.

End Consumption.

Lemma consumed_otp_second_request_witness :
  handle (bcrypt := toy_bcrypt) (Sample.at_ 3000)
         (POST_verify_otp "alice@example.com" "256789") Sample.db2
  = (Sample.db2, mkResponse 500 (Failure "Internal Server Error")).
Proof.
  refine (proj1 (proj2 (consumed_otp_second_request (bcrypt := toy_bcrypt)
            1000 (Sample.at_ 2000) (Sample.at_ 3000) Sample.db1
            "alice@example.com" "256789" Sample.db2
            Sample.alice_reset_token _ _ _ _))).
  - exact (history_step 0 Sample.db0 (Sample.at_ 1000)
             (Serve (POST_forgot_password "Alice@Example.com"))
             (history_start 0 _) ltac:(simpl; lia)).
  - simpl. lia.
  - simpl. lia.
  - vm_compute. reflexivity.
Defined.

(* ===================================================================== *)
(** ** Two requests racing for one code                                   *)
(* ===================================================================== *)

Lemma count_occ_bool (l : list bool) :
  (count_occ bool_dec l false + count_occ bool_dec l true
   = List.length l)%nat.
Proof.
  induction l as [|[|] l IH]; simpl; lia.
Qed.

(** The six ways two requests can make two moves each. *)
Lemma complete_schedules schedule :
  complete schedule = true ->
  In schedule [[false; false; true; true]; [false; true; false; true];
               [false; true; true; false]; [true; false; false; true];
               [true; false; true; false]; [true; true; false; false]].
Proof.
  unfold complete. intros H.
  apply andb_prop in H. destruct H as [Hf Ht].
  apply Nat.eqb_eq in Hf, Ht.
  pose proof (count_occ_bool schedule) as Hlen.
  rewrite Hf, Ht in Hlen.
  destruct schedule as [|m1 [|m2 [|m3 [|m4 [|m5 rest]]]]];
    try discriminate Hlen.
  destruct m1, m2, m3, m4; simpl in Hf; try discriminate Hf;
    simpl; tauto.
Qed.

Section Race.

Context {bcrypt : Bcrypt}.

Lemma advance_Arrived env db e c :
  advance env db (Arrived e c)
  = match User_findOne (email_iLike e) db with
    | None => (db, Answered (inl rolled_back_twice))
    | Some u =>
        match OTP_findOne_latest
                (where_code (user_id u) c password_reset (now env)) db with
        | None => (db, Answered (inl rolled_back_twice))
        | Some o => (db, Found new_transaction (u, o))
        end
    end.
Proof.
  unfold advance. rewrite verifyOtp_find_run.
  destruct (User_findOne (email_iLike e) db) as [u|]; [|reflexivity].
  destruct (OTP_findOne_latest _ db); reflexivity.
Qed.

Lemma advance_Found env db u o :
  commit_ok env = true ->
  advance env db (Found new_transaction (u, o))
  = (apply_write db (WOtpUsed (otp_id o)),
     Answered (inr (ResetToken (reset_token env u)))).
Proof.
  intros Hc. unfold advance, verifyOtp_consume, verifyOtp_catch.
  unfold_workflow. rewrite Hc. reflexivity.
Qed.

Lemma advance_Answered env db outcome :
  advance env db (Answered outcome) = (db, Answered outcome).
Proof. reflexivity. Qed.

(** C2, as the code has it.  The consume step of [verifyOtp] is a read
    followed, after an await, by an update of the row by its key.  Take a
    code that either of two requests, served alone, would consume, and let
    each request make its two moves.  When one request is answered before
    the other arrives, exactly one succeeds and the other fails; in every
    other interleaving both lookups see the unused row and both requests
    succeed. *)
Theorem verify_otp_race :
  forall t env_a env_b db e c tok_a tok_b schedule,
    at_most_one_pending t (otps db) ->
    t <= now env_a -> t <= now env_b ->
    snd (run (verifyOtp env_a e c) db) = inr (ResetToken tok_a) ->
    snd (run (verifyOtp env_b e c) db) = inr (ResetToken tok_b) ->
    complete schedule = true ->
    let '(_, a, b) :=
      interleave env_a env_b schedule db (Arrived e c) (Arrived e c) in
    if serial schedule
    then exactly_one_succeeds a b = true
    else both_succeed a b = true.
Proof.
  intros t env_a env_b db e c tok_a tok_b schedule Hinv Hta Htb
         Hsolo_a Hsolo_b Hcomplete.
  rewrite verifyOtp_run in Hsolo_a, Hsolo_b.
  destruct (User_findOne (email_iLike e) db) as [u|] eqn:Hu;
    [|discriminate].
  destruct (OTP_findOne_latest
              (where_code (user_id u) c password_reset (now env_a)) db)
    as [oa|] eqn:Hoa; [|discriminate].
  destruct (OTP_findOne_latest
              (where_code (user_id u) c password_reset (now env_b)) db)
    as [ob|] eqn:Hob; [|discriminate].
  destruct (commit_ok env_a) eqn:Hca; [|discriminate].
  destruct (commit_ok env_b) eqn:Hcb; [|discriminate].
  clear Hsolo_a Hsolo_b.
  (* what a request meets once the other has consumed the row *)
  assert (Hlate : forall env env' o db',
             t <= now env -> t <= now env' ->
             OTP_findOne_latest
               (where_code (user_id u) c password_reset (now env)) db
             = Some o ->
             users db' = users db ->
             otps db' = otps (apply_write db (WOtpUsed (otp_id o))) ->
             advance env' db' (Arrived e c)
             = (db', Answered (inl rolled_back_twice))).
  { intros env env' o db' Hte Hte' Ho Husers Hotps. rewrite advance_Arrived.
    replace (User_findOne (email_iLike e) db')
      with (User_findOne (email_iLike e) db)
      by (unfold User_findOne; now rewrite Husers).
    rewrite Hu.
    replace (OTP_findOne_latest
               (where_code (user_id u) c password_reset (now env')) db')
      with (OTP_findOne_latest
              (where_code (user_id u) c password_reset (now env'))
              (apply_write db (WOtpUsed (otp_id o))))
      by (unfold OTP_findOne_latest; now rewrite Hotps).
    now rewrite (consumed_not_found t env env' c db u o). }
  assert (Hearly_a : advance env_a db (Arrived e c)
                     = (db, Found new_transaction (u, oa))).
  { rewrite advance_Arrived, Hu, Hoa. reflexivity. }
  assert (Hearly_b : advance env_b db (Arrived e c)
                     = (db, Found new_transaction (u, ob))).
  { rewrite advance_Arrived, Hu, Hob. reflexivity. }
  apply complete_schedules in Hcomplete.
  simpl in Hcomplete.
  repeat (destruct Hcomplete as [<-|Hcomplete]; [|]);
    try contradiction;
    cbn [interleave serial];
    repeat first
      [ rewrite Hearly_a
      | rewrite Hearly_b
      | rewrite (advance_Found env_a _ u oa Hca)
      | rewrite (advance_Found env_b _ u ob Hcb)
      | rewrite (Hlate env_a env_b oa _ Hta Htb Hoa) by reflexivity
      | rewrite (Hlate env_b env_a ob _ Htb Hta Hob) by reflexivity
      | rewrite advance_Answered ];
    reflexivity.
Qed.

End Race.

Lemma verify_otp_race_witness :
  let '(_, a, b) :=
    interleave (Sample.at_ 2000) (Sample.at_ 2001)
               [false; false; true; true] Sample.db1
               (Arrived "alice@example.com" "256789")
               (Arrived "alice@example.com" "256789") in
  exactly_one_succeeds a b = true.
Proof.
  refine (verify_otp_race 1000 (Sample.at_ 2000) (Sample.at_ 2001)
            Sample.db1 "alice@example.com" "256789"
            Sample.alice_reset_token Sample.alice_reset_token
            [false; false; true; true] _ _ _ _ _ _).
  - apply (history_at_most_one (bcrypt := toy_bcrypt)).
    exact (history_step 0 Sample.db0 (Sample.at_ 1000)
             (Serve (POST_forgot_password "Alice@Example.com"))
             (history_start 0 _) ltac:(simpl; lia)).
  - simpl. lia.
  - simpl. lia.
  - vm_compute. reflexivity.
  - vm_compute. reflexivity.
  - reflexivity.
Defined.

(** C2, as stated, fails: both lookups run before either update, and both
    requests are answered with a reset token. *)
Lemma verify_otp_race_both_succeed :
  let '(db, a, b) :=
    interleave (Sample.at_ 2000) (Sample.at_ 2001)
               [false; true; false; true] Sample.db1
               (Arrived "alice@example.com" "256789")
               (Arrived "alice@example.com" "256789") in
  a = Answered (inr (ResetToken Sample.alice_reset_token))
  /\ b = Answered (inr (ResetToken Sample.alice_reset_token))
  /\ exactly_one_succeeds a b = false.
Proof. vm_compute. repeat split. Qed.

(* ===================================================================== *)
(** ** Login and token refresh                                            *)
(* ===================================================================== *)

Lemma find_all_false {A} (f : A -> bool) (l : list A) :
  (forall x, In x l -> f x = false) -> find f l = None.
Proof.
  induction l as [|x l IH]; simpl; intros H; [reflexivity|].
  rewrite (H x (or_introl eq_refl)). apply IH. intros y Hy. apply H. now right.
Qed.

Section Login.

Context {bcrypt : Bcrypt}.

Lemma login_run env e pw db :
  run (login env e pw) db
  = match User_findOne (login_where e) db with
    | None => (db, inl (AppError "INVALID_CREDENTIALS" 401))
    | Some user =>
        if verifyPassword user pw
        then (db, inr (login_data env user))
        else (db, inl (AppError "INVALID_CREDENTIALS" 401))
    end.
Proof.
  unfold login. unfold_workflow.
  destruct (User_findOne (login_where e) db) as [user|] eqn:Hu;
    [|reflexivity].
  simpl. destruct (verifyPassword user pw); [|reflexivity]. simpl.
  unfold User_findOne in Hu. apply find_some in Hu. destruct Hu as [_ Hu].
  unfold login_where in Hu.
  destruct (status user); simpl in *;
    try reflexivity.
  rewrite !andb_false_r in Hu. discriminate.
Qed.

(** C3, as the code has it.  A blocked account is filtered out by the
    query of [login] ([status: ["active", "inactive"]]); the check that
    would raise ACCOUNT_BLOCKED is never reached.  Logging in to a blocked
    account with its own address and password is answered like a wrong
    password: 401 INVALID_CREDENTIALS. *)
Theorem login_blocked_user :
  forall env db e pw u,
    In u (users db) -> status u = blocked ->
    email u = Str.toLowerCase e -> verifyPassword u pw = true ->
    (forall v, In v (users db) -> email v = email u -> v = u) ->
    handle env (POST_login e pw) db
    = (db, mkResponse 401 (Failure "INVALID_CREDENTIALS")).
Proof.
  intros env db e pw u Hin Hst Hmail _ Huniq.
  unfold handle. simpl. rewrite login_run.
  unfold User_findOne. rewrite find_all_false; [reflexivity|].
  intros v Hv. unfold login_where.
  destruct (String.eqb (email v) (Str.toLowerCase e)) eqn:Hm.
  - apply String.eqb_eq in Hm.
    rewrite (Huniq v Hv) by congruence.
    rewrite Hst. simpl. apply andb_false_r.
  - apply andb_false_r.
Qed.

(** No login is ever answered with 403. *)
Lemma login_never_forbidden env db e pw :
  http_status (snd (handle env (POST_login e pw) db)) <> 403.
Proof.
  unfold handle. simpl. rewrite login_run.
  destruct (User_findOne (login_where e) db) as [user|]; simpl;
    [destruct (verifyPassword user pw); simpl|]; lia.
Qed.

(** An inactive account logs in. *)
Lemma login_inactive_user env db e pw u :
  User_findOne (login_where e) db = Some u ->
  status u = inactive -> verifyPassword u pw = true ->
  handle env (POST_login e pw) db
  = (db, mkResponse 200 (login_data env u)).
Proof.
  intros Hu _ Hpw. unfold handle. simpl.
  rewrite login_run, Hu, Hpw. reflexivity.
Qed.


End Login.

Lemma login_blocked_user_witness :
  handle (bcrypt := toy_bcrypt) (Sample.at_ 1000)
         (POST_login "Bob@Example.com" "Hunter22x") Sample.db0
  = (Sample.db0, mkResponse 401 (Failure "INVALID_CREDENTIALS")).
Proof.
  refine (login_blocked_user (bcrypt := toy_bcrypt) (Sample.at_ 1000)
            Sample.db0 "Bob@Example.com" "Hunter22x" Sample.bob _ _ _ _ _).
  - simpl. right. left. reflexivity.
  - reflexivity.
  - reflexivity.
  - reflexivity.
  - intros v [<-|[<-|[<-|[]]]]; simpl; intros H;
      [discriminate H|reflexivity|discriminate H].
Defined.


(* ===================================================================== *)
(** ** Issuing codes: [forgotPassword], [requestEmailVerification]        *)
(* ===================================================================== *)

Section Issuing.

Context {bcrypt : Bcrypt}.

Lemma forgotPassword_run env e db :
  run (forgotPassword env e) db
  = match User_findOne (email_iLike e) db with
    | None => commit_and_respond env db
    | Some u =>
        if MAX_ATTEMPTS <=? recent_attempts env u password_reset db
        then commit_and_respond env db
        else commit_and_respond env
               (mkDB (users db)
                     (fst (createOTP (now env) (random env) (user_id u)
                             password_reset (forgotPassword_options u)
                             (otps db))))
    end.
Proof.
  unfold forgotPassword, commit_and_respond, recent_attempts.
  unfold_workflow.
  destruct (User_findOne (email_iLike e) db) as [u|]; simpl.
  - destruct (MAX_ATTEMPTS <=? _); simpl;
      destruct (commit_ok env); reflexivity.
  - destruct (commit_ok env); reflexivity.
Qed.

Lemma handle_forgot_password env e db :
  handle env (POST_forgot_password e) db
  = (fst (run (forgotPassword env e) db),
     respond (snd (run (forgotPassword env e) db))).
Proof.
  unfold handle. simpl. destruct (run (forgotPassword env e) db).
  reflexivity.
Qed.

Lemma respond_commit_and_respond env db db' :
  respond (snd (commit_and_respond env db))
  = respond (snd (commit_and_respond env db')).
Proof. unfold commit_and_respond. destruct (commit_ok env); reflexivity. Qed.

(** C5.  A forgot-password request for an address that matches no user
    and one for an address of a stored user are answered alike, status
    and body; when the COMMIT goes through the answer is 200 with the
    generic message.  No forgot-password request is answered with
    USER_NOT_FOUND or 404.  (The addresses are patterns PostgreSQL
    accepts; one that finds a user always is.) *)
Theorem forgotPassword_uniform_response :
  forall env db e1 e2 u,
    Str.dangling_escape e1 = false ->
    User_findOne (email_iLike e1) db = None ->
    User_findOne (email_iLike e2) db = Some u ->
    snd (handle env (POST_forgot_password e1) db)
    = snd (handle env (POST_forgot_password e2) db)
    /\ (commit_ok env = true ->
        snd (handle env (POST_forgot_password e1) db)
        = mkResponse 200 generic_response)
    /\ (forall e,
           Str.dangling_escape e = false ->
           let response := snd (handle env (POST_forgot_password e) db) in
           http_status response <> 404
           /\ http_body response <> Failure "USER_NOT_FOUND").
Proof.
  intros env db e1 e2 u _ H1 H2.
  split; [|split; [|intros e _; split]].
  - rewrite !handle_forgot_password, !forgotPassword_run, H1, H2.
    cbn [snd].
    destruct (MAX_ATTEMPTS <=? _); apply respond_commit_and_respond.
  - intros Hc. rewrite handle_forgot_password, forgotPassword_run, H1.
    unfold commit_and_respond. rewrite Hc. reflexivity.
  - rewrite handle_forgot_password, forgotPassword_run. cbn [snd].
    destruct (User_findOne (email_iLike e) db);
      [destruct (MAX_ATTEMPTS <=? _)|];
      unfold commit_and_respond; destruct (commit_ok env); simpl; lia.
  - rewrite handle_forgot_password, forgotPassword_run. cbn [snd].
    destruct (User_findOne (email_iLike e) db);
      [destruct (MAX_ATTEMPTS <=? _)|];
      unfold commit_and_respond; destruct (commit_ok env); simpl;
      discriminate.
Qed.

(** C6.  When at least three password-reset OTP rows of the user were
    created within the last fifteen minutes, a forgot-password request for
    that user leaves both tables as they are, and is answered with the
    generic message. *)
Theorem forgotPassword_rate_limited :
  forall env db e u,
    User_findOne (email_iLike e) db = Some u ->
    3 <= OTP_count
           (fun o => String.eqb (userId o) (user_id u)
                     && purpose_eqb (purpose o) password_reset
                     && (now env - 15 * 60 * 1000 <? createdAt o)) db ->
    fst (handle env (POST_forgot_password e) db) = db
    /\ (commit_ok env = true ->
        snd (handle env (POST_forgot_password e) db)
        = mkResponse 200 generic_response).
Proof.
  intros env db e u Hu Hcount.
  rewrite handle_forgot_password, forgotPassword_run, Hu.
  unfold recent_attempts, where_recent, RATE_LIMIT_WINDOW_MS, MAX_ATTEMPTS.
  apply Z.leb_le in Hcount. rewrite Hcount.
  unfold commit_and_respond. destruct (commit_ok env); split; try reflexivity.
  discriminate.
Qed.

(** C4, as the code has it.  [forgotPassword] opens a transaction but
    calls [OTP.createOTP] without it.  When its COMMIT is rejected the
    workflow fails (500), and yet the invalidation and the new row of
    [createOTP] are in the table. *)
Theorem forgotPassword_not_atomic :
  forall env db e u,
    commit_ok env = false ->
    User_findOne (email_iLike e) db = Some u ->
    recent_attempts env u password_reset db < MAX_ATTEMPTS ->
    let (db', response) := handle env (POST_forgot_password e) db in
    response = mkResponse 500 (Failure "Internal Server Error")
    /\ otps db'
       = fst (createOTP (now env) (random env) (user_id u) password_reset
                (forgotPassword_options u) (otps db))
    /\ otps db' <> otps db.
Proof.
  intros env db e u Hc Hu Hcount.
  rewrite handle_forgot_password, forgotPassword_run, Hu.
  destruct (MAX_ATTEMPTS <=? _) eqn:E; [apply Z.leb_le in E; lia|].
  unfold commit_and_respond. rewrite Hc. cbn [fst snd respond otps].
  repeat split.
  intros Heq. apply (f_equal (@List.length OTP)) in Heq.
  rewrite createOTP_table, length_app, update_used_where_length in Heq.
  simpl in Heq. lia.
Qed.

(** In contrast, [verifyOtp] hands its transaction to the update: a
    rejected COMMIT leaves the tables as they were. *)
Lemma verifyOtp_atomic env e c db :
  commit_ok env = false -> fst (run (verifyOtp env e c) db) = db.
Proof.
  intros Hc. rewrite verifyOtp_run, Hc.
  destruct (User_findOne (email_iLike e) db); [|reflexivity].
  destruct (OTP_findOne_latest _ db); reflexivity.
Qed.

(** So do all the workflows that hand their transaction to every write:
    when one of them fails, the tables are as they were. *)
Lemma failure_changes_nothing env req db error :
  match req with
  | POST_forgot_password _ | POST_request_verification _ => False
  | _ => True
  end ->
  snd (run (service env req) db) = inl error ->
  fst (run (service env req) db) = db.
Proof.
  destruct req; cbn [service]; intros Hreq; try contradiction.
  - intros _. apply login_effect.
  - intros _. apply refreshToken_effect.
  - rewrite verifyOtp_run.
    destruct (User_findOne _ db); [|reflexivity].
    destruct (OTP_findOne_latest _ db); [|reflexivity].
    destruct (commit_ok env); [discriminate|reflexivity].
  - unfold resetPassword, user_update_password. unfold_workflow.
    repeat case_split; intros; try reflexivity; discriminate.
  - unfold verifyEmail. unfold_workflow.
    repeat case_split; intros; try reflexivity; discriminate.
  - unfold changePassword, user_update_password. unfold_workflow.
    repeat case_split; intros; try reflexivity; discriminate.
Qed.

Lemma requestEmailVerification_limited env id db u :
  User_findByPk id db = Some u -> emailVerified u = false ->
  MAX_ATTEMPTS <= recent_attempts env u email_verification db ->
  run (requestEmailVerification env id) db = (db, inl rolled_back_twice).
Proof.
  intros Hu Hv Hcount. apply Z.leb_le in Hcount.
  unfold recent_attempts in Hcount.
  unfold requestEmailVerification. unfold_workflow.
  rewrite Hu. simpl. rewrite Hv. simpl. rewrite Hcount. reflexivity.
Qed.

(** C7, as the code has it.  With three or more codes of the purpose
    created for the user within the window, no new code is issued and no
    row changes, for either purpose.  The password-reset request is
    silent about it: 200 with the generic message.  The
    email-verification request is not: it is answered with an error, not
    with a success. *)
Theorem rate_limit_responses :
  forall env db u,
    (forall e,
        User_findOne (email_iLike e) db = Some u ->
        MAX_ATTEMPTS <= recent_attempts env u password_reset db ->
        commit_ok env = true ->
        handle env (POST_forgot_password e) db
        = (db, mkResponse 200 generic_response))
    /\ (forall id,
           User_findByPk id db = Some u -> emailVerified u = false ->
           MAX_ATTEMPTS <= recent_attempts env u email_verification db ->
           let (db', response) :=
             handle env (POST_request_verification id) db in
           db' = db
           /\ http_status response <> 200
           /\ exists message, http_body response = Failure message).
Proof.
  intros env db u. split.
  - intros e Hu Hcount Hc.
    rewrite handle_forgot_password, forgotPassword_run, Hu.
    apply Z.leb_le in Hcount. rewrite Hcount.
    unfold commit_and_respond. rewrite Hc. reflexivity.
  - intros id Hu Hv Hcount. unfold handle. cbn [service].
    rewrite (requestEmailVerification_limited env id db u Hu Hv Hcount).
    simpl. repeat split; [lia|eauto].
Qed.

End Issuing.

Lemma forgotPassword_uniform_response_witness :
  snd (handle (bcrypt := toy_bcrypt) (Sample.at_ 1000)
         (POST_forgot_password "nobody@example.com") Sample.db0)
  = snd (handle (bcrypt := toy_bcrypt) (Sample.at_ 1000)
           (POST_forgot_password "alice@example.com") Sample.db0).
Proof.
  refine (proj1 (forgotPassword_uniform_response (bcrypt := toy_bcrypt)
                   (Sample.at_ 1000) Sample.db0 "nobody@example.com"
                   "alice@example.com" Sample.alice _ _ _)).
  - vm_compute. reflexivity.
  - vm_compute. reflexivity.
  - vm_compute. reflexivity.
Defined.

Lemma forgotPassword_rate_limited_witness :
  fst (handle (bcrypt := toy_bcrypt) (Sample.at_ 4000)
         (POST_forgot_password "alice@example.com")
         (Sample.db_limited password_reset))
  = Sample.db_limited password_reset.
Proof.
  refine (proj1 (forgotPassword_rate_limited (bcrypt := toy_bcrypt)
                   (Sample.at_ 4000) (Sample.db_limited password_reset)
                   "alice@example.com" Sample.alice _ _)).
  - vm_compute. reflexivity.
  - vm_compute. discriminate.
Defined.

Lemma forgotPassword_not_atomic_witness :
  let (db', response) :=
    handle (bcrypt := toy_bcrypt) (Sample.commit_fails_at 1000)
           (POST_forgot_password "alice@example.com") Sample.db0 in
  response = mkResponse 500 (Failure "Internal Server Error")
  /\ otps db' <> otps Sample.db0.
Proof.
  pose proof (forgotPassword_not_atomic (bcrypt := toy_bcrypt)
                (Sample.commit_fails_at 1000) Sample.db0
                "alice@example.com" Sample.alice) as H.
  destruct (handle (Sample.commit_fails_at 1000)
              (POST_forgot_password "alice@example.com") Sample.db0)
    as [db' response].
  split; apply H; try reflexivity.
Defined.

Lemma rate_limit_responses_witness :
  handle (bcrypt := toy_bcrypt) (Sample.at_ 4000)
         (POST_forgot_password "alice@example.com")
         (Sample.db_limited password_reset)
  = (Sample.db_limited password_reset, mkResponse 200 generic_response)
  /\ fst (handle (bcrypt := toy_bcrypt) (Sample.at_ 4000)
            (POST_request_verification "USR-1")
            (Sample.db_limited email_verification))
     = Sample.db_limited email_verification.
Proof.
  split.
  - refine (proj1 (rate_limit_responses (bcrypt := toy_bcrypt)
                     (Sample.at_ 4000) (Sample.db_limited password_reset)
                     Sample.alice) "alice@example.com" _ _ _).
    + vm_compute. reflexivity.
    + vm_compute. discriminate.
    + reflexivity.
  - pose proof (proj2 (rate_limit_responses (bcrypt := toy_bcrypt)
                         (Sample.at_ 4000)
                         (Sample.db_limited email_verification)
                         Sample.alice) "USR-1") as H.
    destruct (handle (Sample.at_ 4000) (POST_request_verification "USR-1")
                (Sample.db_limited email_verification)) as [db' response].
    apply H.
    + vm_compute. reflexivity.
    + reflexivity.
    + vm_compute. discriminate.
Defined.

(** C7, as stated, fails for email verification: with three codes issued
    within the window the request is answered with an error, not with a
    success. *)
Lemma requestEmailVerification_not_silent :
  let response :=
    snd (handle (bcrypt := toy_bcrypt) (Sample.at_ 4000)
           (POST_request_verification "USR-1")
           (Sample.db_limited email_verification)) in
  response = mkResponse 500 (Failure "Internal Server Error")
  /\ forall message, response <> mkResponse 200 (Message message).
Proof.
  vm_compute. split; [reflexivity|discriminate].
Qed.

(** The failing input of C4, evaluated: the request fails and a row was
    written. *)
Example forgotPassword_not_atomic_run :
  handle (bcrypt := toy_bcrypt) (Sample.commit_fails_at 1000)
         (POST_forgot_password "alice@example.com") Sample.db0
  = (mkDB (users Sample.db0)
          [mkOTP 1 "USR-1" "256789" password_reset 601000 false
                 (Some "alice@example.com") 1000],
     mkResponse 500 (Failure "Internal Server Error")).
Proof. vm_compute. reflexivity. Qed.

(* ===================================================================== *)
(** ** Resetting the password ([resetPassword])                           *)
(* ===================================================================== *)

Lemma find_update_user (w : User -> bool) id f l :
  (forall x, w (f x) = w x) ->
  find w (update_user id f l)
  = option_map (fun x => if String.eqb (user_id x) id then f x else x)
               (find w l).
Proof.
  intros Hw. unfold update_user.
  induction l as [|x l IH]; simpl; [reflexivity|].
  destruct (String.eqb (user_id x) id) eqn:E.
  - rewrite Hw. destruct (w x); [simpl; now rewrite E|exact IH].
  - destruct (w x); [simpl; now rewrite E|exact IH].
Qed.

Section ResetPassword.

Context {bcrypt : Bcrypt}.

Lemma resetPassword_run env tok sub newPassword db u :
  jwt_verify (now env) tok (jwtSecret (config env))
  = inr (PurposePayload sub "password_reset") ->
  User_findByPk sub db = Some u ->
  run (resetPassword env tok newPassword) db
  = if verifyPassword u newPassword
    then (db, inl rolled_back_twice)
    else if String.eqb newPassword (password u)
    then if commit_ok env
         then (apply_write db (WOtpsUsedWhere (user_id u) password_reset),
               inr (Message "Password updated successfully"))
         else (db, inl committed_then_rolled_back)
    else if (6 <=? Z.of_nat (String.length newPassword))
            && (Z.of_nat (String.length newPassword) <=? 255)
    then if commit_ok env
         then (after_reset env u newPassword db,
               inr (Message "Password updated successfully"))
         else (db, inl committed_then_rolled_back)
    else (db, inl (AppError "PASSWORD_RESET_ERROR" 500)).
Proof.
  intros Htok Hu.
  unfold resetPassword, user_update_password, after_reset.
  unfold_workflow. rewrite Htok. simpl. rewrite Hu. simpl.
  destruct (verifyPassword u newPassword); [reflexivity|]. simpl.
  destruct (String.eqb newPassword (password u)); simpl.
  - destruct (commit_ok env); reflexivity.
  - destruct ((6 <=? Z.of_nat (String.length newPassword))
              && (Z.of_nat (String.length newPassword) <=? 255)); simpl;
      [destruct (commit_ok env)|]; reflexivity.
Qed.

(** C9, as the code has it.  With a valid password-reset token, a new
    password equal to the current one changes nothing, and the service
    raises SAME_PASSWORD after rolling back; the handler then rolls back
    again, that call rejects, and the request is answered with 500
    "Internal Server Error" (not with 400 SAME_PASSWORD). *)
Theorem resetPassword_same_password :
  forall env db tok sub u newPassword,
    jwt_verify (now env) tok (jwtSecret (config env))
    = inr (PurposePayload sub "password_reset") ->
    User_findByPk sub db = Some u ->
    verifyPassword u newPassword = true ->
    run (resetPassword env tok newPassword) db
    = (db, inl rolled_back_twice)
    /\ handle env (POST_reset_password tok newPassword) db
       = (db, mkResponse 500 (Failure "Internal Server Error")).
Proof.
  intros env db tok sub u newPassword Htok Hu Hsame.
  assert (Hrun : run (resetPassword env tok newPassword) db
                 = (db, inl rolled_back_twice)).
  { rewrite (resetPassword_run env tok sub newPassword db u Htok Hu).
    now rewrite Hsame. }
  split; [exact Hrun|].
  unfold handle. cbn [service]. rewrite Hrun. reflexivity.
Qed.

(** The other half of the scenario: a different new password is stored
    hashed, every unused password-reset OTP of the user is marked used,
    and afterwards the account logs in with the new password and with no
    other. *)
Lemma resetPassword_then_login env env' db tok sub u e newPassword :
  jwt_verify (now env) tok (jwtSecret (config env))
  = inr (PurposePayload sub "password_reset") ->
  User_findByPk sub db = Some u ->
  verifyPassword u newPassword = false ->
  newPassword <> password u ->
  6 <= Z.of_nat (String.length newPassword) <= 255 ->
  commit_ok env = true ->
  User_findOne (login_where e) db = Some u ->
  let db' := after_reset env u newPassword db in
  handle env (POST_reset_password tok newPassword) db
  = (db', mkResponse 200 (Message "Password updated successfully"))
  /\ (forall o, In o (otps db') -> userId o = user_id u ->
                purpose o = password_reset -> used o = true)
  /\ (exists user, http_body (snd (handle env' (POST_login e newPassword) db'))
                   = login_data env' user)
  /\ (forall old, old <> newPassword ->
                  snd (handle env' (POST_login e old) db')
                  = mkResponse 401 (Failure "INVALID_CREDENTIALS")).
Proof.
  intros Htok Hu Hdiff Hraw Hlen Hc Hlogin db'.
  assert (Hfound :
            User_findOne (login_where e) db'
            = Some (set_password
                      (bcrypt_hash newPassword (rand_salt (random env)))
                      u)).
  { unfold User_findOne in *. subst db'. unfold after_reset. simpl.
    rewrite find_update_user by reflexivity.
    rewrite Hlogin. simpl. now rewrite String.eqb_refl. }
  repeat split.
  - unfold handle. cbn [service].
    rewrite (resetPassword_run env tok sub newPassword db u Htok Hu).
    rewrite Hdiff.
    destruct (String.eqb newPassword (password u)) eqn:E;
      [apply String.eqb_eq in E; contradiction|].
    replace ((6 <=? Z.of_nat (String.length newPassword))
             && (Z.of_nat (String.length newPassword) <=? 255))
      with true
      by (symmetry; apply andb_true_intro; split; apply Z.leb_le; lia).
    rewrite Hc. reflexivity.
  - intros o Hin Huid Hp. subst db'. unfold after_reset in Hin.
    simpl in Hin. unfold update_used_where in Hin.
    apply in_map_iff in Hin. destruct Hin as (o0 & Ho & _).
    destruct (used o0) eqn:Hused0.
    + rewrite andb_false_r in Ho. subst o. exact Hused0.
    + destruct (String.eqb (userId o0) (user_id u)
                && purpose_eqb (purpose o0) password_reset) eqn:Hm;
        simpl in Ho; subst o; [reflexivity|].
      rewrite Huid, Hp, String.eqb_refl in Hm. discriminate.
  - eexists. unfold handle. cbn [service]. rewrite login_run, Hfound.
    unfold verifyPassword. cbn [password set_password].
    rewrite bcrypt_compare_hash, String.eqb_refl. reflexivity.
  - intros old Hold. unfold handle. cbn [service].
    rewrite login_run, Hfound.
    unfold verifyPassword. cbn [password set_password].
    rewrite bcrypt_compare_hash.
    destruct (String.eqb old newPassword) eqn:E;
      [apply String.eqb_eq in E; contradiction|reflexivity].
Qed.

End ResetPassword.

Lemma resetPassword_same_password_witness :
  handle (bcrypt := toy_bcrypt) (Sample.at_ 3000)
         (POST_reset_password Sample.alice_reset_token "Secret123")
         Sample.db2
  = (Sample.db2, mkResponse 500 (Failure "Internal Server Error")).
Proof.
  refine (proj2 (resetPassword_same_password (bcrypt := toy_bcrypt)
                   (Sample.at_ 3000) Sample.db2 Sample.alice_reset_token
                   "USR-1" Sample.alice "Secret123" _ _ _)).
  - vm_compute. reflexivity.
  - vm_compute. reflexivity.
  - vm_compute. reflexivity.
Defined.

(* ===================================================================== *)
(** ** More on the OTP model                                              *)
(* ===================================================================== *)

Lemma string_get_lt (s : string) : forall n,
  (n < String.length s)%nat -> exists c, String.get n s = Some c.
Proof.
  induction s as [|a s IH]; simpl; intros n Hn; [lia|].
  destruct n as [|n]; [eauto|]. apply IH. lia.
Qed.

Lemma string_get_In (s : string) : forall n c,
  String.get n s = Some c -> In c (list_ascii_of_string s).
Proof.
  induction s as [|a s IH]; simpl; intros n c H; [discriminate|].
  destruct n as [|n]; [left; congruence|right; eauto].
Qed.

(** X1.  [generateAlphanumericCode(length)] returns exactly [length]
    characters, each of them one of the 36 characters of its alphabet,
    whatever the random bytes. *)
Theorem generateAlphanumericCode_format :
  forall bytes length,
    0 <= length ->
    String.length (generateAlphanumericCode bytes length) = Z.to_nat length
    /\ Forall (fun c => In c (list_ascii_of_string alphanumeric_chars))
              (list_ascii_of_string (generateAlphanumericCode bytes length)).
Proof.
  intros bytes len _. unfold generateAlphanumericCode.
  generalize (Z.to_nat len) as n. intros n. revert bytes.
  induction n as [|n IH]; intros bytes; [split; constructor|].
  cbn [generateAlphanumericCode_from].
  set (b := match bytes with b :: _ => b | [] => 0 end).
  change (Z.of_nat (String.length alphanumeric_chars)) with 36.
  assert (Hidx : (Z.to_nat (b mod 36) < String.length alphanumeric_chars)%nat)
    by (change (String.length alphanumeric_chars) with 36%nat;
        pose proof (Z.mod_pos_bound b 36); lia).
  destruct (string_get_lt alphanumeric_chars _ Hidx) as [c Hc].
  rewrite Hc. destruct (IH (tl bytes)) as [Hlen Hall].
  cbn [String.length list_ascii_of_string]. split; [now rewrite Hlen|].
  constructor; [|exact Hall].
  exact (string_get_In _ _ _ Hc).
Qed.

Lemma generateAlphanumericCode_format_witness :
  String.length (generateAlphanumericCode [7; 200; 35; 36] 4) = 4%nat.
Proof.
  refine (proj1 (generateAlphanumericCode_format [7; 200; 35; 36] 4 _)).
  lia.
Defined.

(** X2.  The alphanumeric alphabet is not drawn uniformly: of the 256 byte
    values, eight select each of the letters A to D and seven select each
    of the other 32 characters ([randomBytes[i] % 36]). *)
Theorem generateAlphanumericCode_bias :
  map bytes_yielding (list_ascii_of_string alphanumeric_chars)
  = (repeat 8 4 ++ repeat 7 32)%list%nat.
Proof. vm_compute. reflexivity. Qed.

(** *** Decimal numerals *)

Lemma of_uint_cons (d : Decimal.uint) :
  (N.of_uint (Decimal.D0 d) = N.of_uint d
   /\ N.of_uint (Decimal.D1 d)
      = N.of_uint d + 1 * 10 ^ DecimalPos.Unsigned.usize d
   /\ N.of_uint (Decimal.D2 d)
      = N.of_uint d + 2 * 10 ^ DecimalPos.Unsigned.usize d
   /\ N.of_uint (Decimal.D3 d)
      = N.of_uint d + 3 * 10 ^ DecimalPos.Unsigned.usize d
   /\ N.of_uint (Decimal.D4 d)
      = N.of_uint d + 4 * 10 ^ DecimalPos.Unsigned.usize d
   /\ N.of_uint (Decimal.D5 d)
      = N.of_uint d + 5 * 10 ^ DecimalPos.Unsigned.usize d
   /\ N.of_uint (Decimal.D6 d)
      = N.of_uint d + 6 * 10 ^ DecimalPos.Unsigned.usize d
   /\ N.of_uint (Decimal.D7 d)
      = N.of_uint d + 7 * 10 ^ DecimalPos.Unsigned.usize d
   /\ N.of_uint (Decimal.D8 d)
      = N.of_uint d + 8 * 10 ^ DecimalPos.Unsigned.usize d
   /\ N.of_uint (Decimal.D9 d)
      = N.of_uint d + 9 * 10 ^ DecimalPos.Unsigned.usize d)%N.
Proof.
  unfold N.of_uint. rewrite !DecimalPos.Unsigned.of_uint_alt.
  unfold Decimal.rev at 1 3 5 7 9 11 13 15 17 19. cbn [Decimal.revapp].
  rewrite !DecimalPos.Unsigned.of_lu_revapp.
  cbn [DecimalPos.Unsigned.of_lu].
  repeat split; lia.
Qed.

Lemma of_uint_upper (d : Decimal.uint) :
  (N.of_uint d < 10 ^ DecimalPos.Unsigned.usize d)%N.
Proof.
  induction d;
    [cbn; lia|..];
    destruct (of_uint_cons d)
      as (H0 & H1 & H2 & H3 & H4 & H5 & H6 & H7 & H8 & H9);
    cbn [DecimalPos.Unsigned.usize]; rewrite N.pow_succ_r';
    first [rewrite H0|rewrite H1|rewrite H2|rewrite H3|rewrite H4
          |rewrite H5|rewrite H6|rewrite H7|rewrite H8|rewrite H9];
    lia.
Qed.

Lemma of_uint_lower (d : Decimal.uint) :
  leading_nonzero d ->
  (10 ^ DecimalPos.Unsigned.usize d <= 10 * N.of_uint d)%N.
Proof.
  destruct d; cbn [leading_nonzero]; intros H; try contradiction;
    destruct (of_uint_cons d)
      as (H0 & H1 & H2 & H3 & H4 & H5 & H6 & H7 & H8 & H9);
    cbn [DecimalPos.Unsigned.usize]; rewrite N.pow_succ_r';
    first [rewrite H1|rewrite H2|rewrite H3|rewrite H4
          |rewrite H5|rewrite H6|rewrite H7|rewrite H8|rewrite H9];
    lia.
Qed.

Lemma to_uint_leading_nonzero (p : positive) :
  leading_nonzero (Pos.to_uint p).
Proof.
  pose proof (DecimalPos.Unsigned.to_of (Pos.to_uint p)) as H.
  rewrite DecimalPos.Unsigned.of_to in H. simpl in H.
  pose proof (DecimalPos.Unsigned.to_uint_nonzero p) as Hz.
  pose proof (DecimalPos.Unsigned.to_uint_nonnil p) as Hnil.
  destruct (Pos.to_uint p) as [|d| | | | | | | | |]; simpl; auto.
  unfold Decimal.unorm in H. cbn [Decimal.nzhead] in H.
  pose proof (DecimalFacts.nb_digits_nzhead d) as Hn.
  destruct (Decimal.nzhead d) as [|u| | | | | | | | |] eqn:En;
    try discriminate H.
  - apply Hz. now rewrite <- H.
  - injection H as H. subst u. cbn [Decimal.nb_digits] in Hn. lia.
Qed.

Lemma string_of_uint_length (d : Decimal.uint) :
  String.length (NilEmpty.string_of_uint d)
  = N.to_nat (DecimalPos.Unsigned.usize d).
Proof.
  induction d;
    cbn [NilEmpty.string_of_uint String.length DecimalPos.Unsigned.usize];
    try rewrite IHd; lia.
Qed.

Lemma string_of_uint_digits (d : Decimal.uint) :
  Forall (fun c => is_digit c = true)
         (list_ascii_of_string (NilEmpty.string_of_uint d)).
Proof.
  induction d; cbn [NilEmpty.string_of_uint list_ascii_of_string];
    constructor; auto.
Qed.

Lemma string_of_uint_first (d : Decimal.uint) :
  leading_nonzero d ->
  exists c, first_char (NilEmpty.string_of_uint d) = Some c
            /\ c <> "0"%char.
Proof.
  destruct d; cbn [leading_nonzero]; intros H; try contradiction;
    cbn [NilEmpty.string_of_uint first_char]; eexists; split;
    try reflexivity; discriminate.
Qed.

Lemma pow10_digits (k l n : N) :
  (10 ^ k <= 10 * n -> n < 10 ^ k ->
   10 ^ l <= 10 * n -> n < 10 ^ l -> k = l)%N.
Proof.
  intros Hk1 Hk2 Hl1 Hl2.
  destruct (N.lt_trichotomy k l) as [H|[H|H]]; [exfalso|exact H|exfalso].
  - assert (10 ^ N.succ k <= 10 ^ l)%N as H0
      by (apply N.pow_le_mono_r; lia).
    rewrite N.pow_succ_r' in H0. lia.
  - assert (10 ^ N.succ l <= 10 ^ k)%N as H0
      by (apply N.pow_le_mono_r; lia).
    rewrite N.pow_succ_r' in H0. lia.
Qed.

(** The decimal print of a number of [len] digits. *)
Lemma of_N_digits (n len : Z) :
  1 <= len -> 10 ^ (len - 1) <= n < 10 ^ len ->
  let s := Str.of_N (Z.to_N n) in
  String.length s = Z.to_nat len
  /\ Forall (fun c => is_digit c = true) (list_ascii_of_string s)
  /\ exists c, first_char s = Some c /\ c <> "0"%char.
Proof.
  intros Hlen Hn s. subst s.
  set (min := 10 ^ (len - 1)) in *.
  assert (Hmin : 0 < min) by (apply Z.pow_pos_nonneg; lia).
  assert (Hmax : 10 ^ len = 10 * min).
  { unfold min. rewrite <- Z.pow_succ_r by lia. f_equal. lia. }
  destruct (Z.to_N n) as [|p] eqn:Ep; [lia|].
  unfold Str.of_N. cbn [N.to_uint].
  set (d := Pos.to_uint p).
  assert (Hd : N.of_uint d = Npos p) by apply DecimalPos.Unsigned.of_to.
  pose proof (to_uint_leading_nonzero p) as Hlead. fold d in Hlead.
  assert (Hs : NilZero.string_of_uint d = NilEmpty.string_of_uint d)
    by (destruct d; [contradiction|..]; reflexivity).
  rewrite Hs.
  assert (Hk : DecimalPos.Unsigned.usize d = Z.to_N len).
  { apply (pow10_digits _ _ (Npos p)).
    - rewrite <- Hd. now apply of_uint_lower.
    - rewrite <- Hd. apply of_uint_upper.
    - rewrite <- Ep.
      apply N2Z.inj_le. rewrite N2Z.inj_mul, N2Z.inj_pow, !Z2N.id by lia.
      change (Z.of_N 10) with 10. rewrite Hmax. lia.
    - rewrite <- Ep.
      apply N2Z.inj_lt. rewrite N2Z.inj_pow, !Z2N.id by lia.
      change (Z.of_N 10) with 10. rewrite Hmax. lia. }
  repeat split.
  - rewrite string_of_uint_length, Hk. lia.
  - apply string_of_uint_digits.
  - now apply string_of_uint_first.
Qed.

(** X3.  For a length between 1 and 15, [generateNumericCode(length)]
    returns exactly [length] decimal digits, the first of them not 0, so
    [padStart] never has to pad. *)
Theorem generateNumericCode_format :
  forall r length,
    0 <= r < 2 ^ 32 -> 1 <= length <= 15 ->
    let code := generateNumericCode r length in
    String.length code = Z.to_nat length
    /\ Forall (fun c => is_digit c = true) (list_ascii_of_string code)
    /\ exists c, first_char code = Some c /\ c <> "0"%char.
Proof.
  intros r len Hr Hlen code. subst code. unfold generateNumericCode.
  set (min := 10 ^ (len - 1)).
  assert (Hmin : 0 < min) by (apply Z.pow_pos_nonneg; lia).
  assert (Hmax : 10 ^ len = 10 * min).
  { unfold min. rewrite <- Z.pow_succ_r by lia. f_equal. lia. }
  rewrite Hmax.
  replace (10 * min - 1 - min + 1) with (9 * min) by lia.
  pose proof (Z.mod_pos_bound r (9 * min) ltac:(lia)) as Hmod.
  set (n := r mod (9 * min) + min) in *.
  destruct (of_N_digits n len ltac:(lia)) as (Hl & Hdig & Hfirst).
  { fold min. rewrite Hmax. unfold n. lia. }
  unfold Str.padStart0. rewrite Hl, Nat.sub_diag. cbn [Str.repeat_char].
  cbn [append]. auto.
Qed.

Lemma generateNumericCode_format_witness :
  String.length (generateNumericCode 4294967295 6) = 6%nat.
Proof.
  refine (proj1 (generateNumericCode_format 4294967295 6 _ _)); lia.
Defined.

(** X4.  From ten digits on the code carries no more than the 32 random
    bits: the range exceeds 2^32, the remainder is the random word itself,
    and the code is the decimal print of [10^(length-1) + r]. *)
Theorem generateNumericCode_long :
  forall r length,
    0 <= r < 2 ^ 32 -> 10 <= length <= 15 ->
    generateNumericCode r length
    = Str.of_N (Z.to_N (10 ^ (length - 1) + r)).
Proof.
  intros r len Hr Hlen. unfold generateNumericCode.
  set (min := 10 ^ (len - 1)).
  assert (Hbig : 10 ^ 9 <= min)
    by (unfold min; apply Z.pow_le_mono_r; lia).
  assert (Hmax : 10 ^ len = 10 * min).
  { unfold min. rewrite <- Z.pow_succ_r by lia. f_equal. lia. }
  rewrite Hmax.
  replace (10 * min - 1 - min + 1) with (9 * min) by lia.
  change (2 ^ 32) with 4294967296 in Hr.
  change (10 ^ 9) with 1000000000 in Hbig.
  rewrite (Z.mod_small r (9 * min)) by lia.
  replace (min + r) with (r + min) by lia.
  destruct (of_N_digits (r + min) len ltac:(lia)) as (Hl & _).
  { fold min. rewrite Hmax. lia. }
  unfold Str.padStart0. rewrite Hl, Nat.sub_diag. reflexivity.
Qed.

Lemma generateNumericCode_long_witness :
  generateNumericCode 123 10 = "1000000123".
Proof.
  rewrite (generateNumericCode_long 123 10) by lia. reflexivity.
Defined.

(** *** Issuing and consuming through the model's own methods *)

Lemma find_app_skip {A} (f : A -> bool) (l l' : list A) :
  (forall x, In x l -> f x = false) -> find f (l ++ l') = find f l'.
Proof.
  induction l as [|x l IH]; simpl; intros H; [reflexivity|].
  rewrite (H x (or_introl eq_refl)). apply IH. intros y Hy. apply H.
  now right.
Qed.

(** After the invalidating update, no row of the pair is pending at any
    later time, however many more rows are marked used. *)
Lemma invalidated_not_pending u p t t' f table o :
  t <= t' ->
  In o (update_used_where f
          (update_used_where (pending_for u p t) table)) ->
  pending_for u p t' o = false.
Proof.
  intros Ht Hin. unfold update_used_where in Hin.
  apply in_map_iff in Hin. destruct Hin as (o1 & <- & Hin).
  apply in_map_iff in Hin. destruct Hin as (o0 & <- & _).
  destruct (pending_for u p t o0) eqn:Hp.
  - destruct (f (set_used o0)); apply pending_for_set_used.
  - destruct (f o0); [apply pending_for_set_used|].
    destruct (pending_for u p t' o0) eqn:Hp'; [|reflexivity].
    rewrite (pending_for_earlier u p t t' o0 Ht Hp') in Hp. discriminate.
Qed.

Lemma verifyOTP_needs_pending t u c p table :
  (forall o, In o table -> pending_for u p t o = false) ->
  verifyOTP t u c p table = None.
Proof.
  intros H. unfold verifyOTP. apply find_all_false. intros o Hin.
  specialize (H o Hin). unfold pending_for in H.
  destruct (String.eqb (userId o) u); simpl in *; [|reflexivity].
  destruct (String.eqb (code o) c); simpl; [|reflexivity].
  destruct (purpose_eqb (purpose o) p); simpl in *; [exact H|reflexivity].
Qed.

(** X5.  Issue, consume, consume again.  Right after
    [createOTP(u, p, options)], and until the new row expires,
    [verifyAndConsumeOTP] accepts the code just issued and no other code of
    (u, p); it returns the row marked used; and from then on the same code
    is refused. *)
Theorem issue_consume_once :
  forall t t1 t2 rnd u p options table,
    let table1 := fst (createOTP t rnd u p options table) in
    let otp := snd (createOTP t rnd u p options table) in
    t <= t1 < expiresAt otp -> t <= t2 ->
    verifyAndConsumeOTP t1 u (code otp) p table1
    = (markAsUsed otp table1, Some (set_used otp))
    /\ (forall c, c <> code otp ->
                  verifyAndConsumeOTP t1 u c p table1 = (table1, None))
    /\ verifyAndConsumeOTP t2 u (code otp) p (markAsUsed otp table1)
       = (markAsUsed otp table1, None).
Proof.
  intros t t1 t2 rnd u p options table table1 otp Ht1 Ht2.
  assert (Hold : forall t' f c o,
             t <= t' ->
             In o (update_used_where f
                     (update_used_where (pending_for u p t) table)) ->
             String.eqb (userId o) u && String.eqb (code o) c
             && purpose_eqb (purpose o) p && pending t' o = false).
  { intros t' f c o Ht' Hin.
    pose proof (invalidated_not_pending u p t t' f table o Ht' Hin) as H.
    unfold pending_for in H.
    destruct (String.eqb (userId o) u); simpl in *; [|reflexivity].
    destruct (String.eqb (code o) c); simpl; [|reflexivity].
    destruct (purpose_eqb (purpose o) p); simpl in *; [exact H|reflexivity]. }
  assert (Hfound : verifyOTP t1 u (code otp) p table1 = Some otp).
  { unfold verifyOTP. subst table1. rewrite createOTP_table. fold otp.
    rewrite find_app_skip.
    - simpl. unfold pending. subst otp. simpl.
      rewrite !String.eqb_refl, purpose_eqb_refl. simpl.
      destruct Ht1 as [_ Ht1]. simpl in Ht1.
      apply Z.ltb_lt in Ht1. now rewrite Ht1.
    - intros o Hin. apply (Hold t1 (fun _ => false) (code otp) o); [lia|].
      now rewrite update_used_where_none. }
  split; [|split].
  - unfold verifyAndConsumeOTP. now rewrite Hfound.
  - intros c Hc. unfold verifyAndConsumeOTP.
    replace (verifyOTP t1 u c p table1) with (@None OTP); [reflexivity|].
    symmetry. unfold verifyOTP. apply find_all_false. intros o Hin.
    subst table1. rewrite createOTP_table in Hin. fold otp in Hin.
    apply in_app_or in Hin. destruct Hin as [Hin|[<-|[]]].
    + apply (Hold t1 (fun _ => false) c o); [lia|].
      now rewrite update_used_where_none.
    + destruct (String.eqb (code otp) c) eqn:E;
        [apply String.eqb_eq in E; congruence|].
      now rewrite andb_false_r.
  - unfold verifyAndConsumeOTP.
    rewrite verifyOTP_needs_pending; [reflexivity|].
    intros o Hin. unfold markAsUsed in Hin. subst table1.
    rewrite createOTP_table in Hin. fold otp in Hin.
    unfold update_used_where in Hin at 1. rewrite map_app in Hin.
    apply in_app_or in Hin. destruct Hin as [Hin|Hin].
    + apply (invalidated_not_pending u p t t2
               (fun r => N.eqb (otp_id r) (otp_id otp)) table); assumption.
    + simpl in Hin. rewrite N.eqb_refl in Hin. destruct Hin as [<-|[]].
      apply pending_for_set_used.
Qed.

Lemma issue_consume_once_witness :
  verifyAndConsumeOTP 4000 "USR-1" "256789" password_reset
    (markAsUsed
       (snd (createOTP 2000 (mkRandom 123456789 [] "s") "USR-1"
               password_reset (Some (mkOptions (Some 10) None false (Some 6)))
               (otps Sample.db1)))
       (fst (createOTP 2000 (mkRandom 123456789 [] "s") "USR-1"
               password_reset (Some (mkOptions (Some 10) None false (Some 6)))
               (otps Sample.db1))))
  = (markAsUsed
       (snd (createOTP 2000 (mkRandom 123456789 [] "s") "USR-1"
               password_reset (Some (mkOptions (Some 10) None false (Some 6)))
               (otps Sample.db1)))
       (fst (createOTP 2000 (mkRandom 123456789 [] "s") "USR-1"
               password_reset (Some (mkOptions (Some 10) None false (Some 6)))
               (otps Sample.db1))),
     None).
Proof.
  refine (proj2 (proj2 (issue_consume_once 2000 3000 4000
                          (mkRandom 123456789 [] "s") "USR-1" password_reset
                          (Some (mkOptions (Some 10) None false (Some 6)))
                          (otps Sample.db1) _ _))).
  - vm_compute. split; [discriminate|reflexivity].
  - lia.
Defined.

(** X6.  [cleanupExpiredOTPs] leaves the valid OTPs of every user as they
    are, leaves no unused row behind whose expiry lies before the sweep,
    and a second sweep at the same instant affects no row. *)
Theorem cleanupExpiredOTPs_sweep :
  forall t table,
    let table' := fst (cleanupExpiredOTPs t table) in
    (forall u p, getValidOTPs t u p table' = getValidOTPs t u p table)
    /\ (forall o, In o table' -> used o = false -> t <= expiresAt o)
    /\ cleanupExpiredOTPs t table' = (table', 0).
Proof.
  intros t table table'. subst table'. unfold cleanupExpiredOTPs.
  cbn [fst]. unfold update_used_where.
  split; [|split].
  - intros u p. unfold getValidOTPs.
    induction table as [|o table IH]; [reflexivity|].
    cbn [map].
    destruct (negb (used o) && (expiresAt o <? t)) eqn:E.
    + apply andb_prop in E. destruct E as [_ E]. apply Z.ltb_lt in E.
      assert (Ho : pending t o = false).
      { unfold pending.
        destruct (t <? expiresAt o) eqn:E'; [apply Z.ltb_lt in E'; lia|].
        apply andb_false_r. }
      cbn [filter]. rewrite pending_set_used, Ho, !andb_false_r.
      cbn [andb]. exact IH.
    + cbn [filter]. rewrite IH. reflexivity.
  - intros o Hin Hused. apply in_map_iff in Hin.
    destruct Hin as (o0 & <- & _).
    destruct (negb (used o0) && (expiresAt o0 <? t)) eqn:E;
      [discriminate Hused|].
    rewrite Hused in E. simpl in E. apply Z.ltb_ge in E. exact E.
  - assert (H : forall o,
               In o (map (fun o => if negb (used o) && (expiresAt o <? t)
                                   then set_used o else o) table) ->
               negb (used o) && (expiresAt o <? t) = false).
    { intros o Hin. apply in_map_iff in Hin. destruct Hin as (o0 & <- & _).
      destruct (negb (used o0) && (expiresAt o0 <? t)) eqn:E;
        [reflexivity|exact E]. }
    f_equal.
    + rewrite <- (map_id (map _ table)) at 2.
      apply map_ext_in. intros o Hin. now rewrite (H o Hin).
    + replace (filter _ (map _ table)) with (@nil OTP); [reflexivity|].
      symmetry. generalize dependent (map (fun o => if negb (used o) && (expiresAt o <? t) then set_used o else o) table).
      intros l Hl. induction l as [|o l IH]; [reflexivity|].
      simpl. rewrite (Hl o (or_introl eq_refl)). apply IH.
      intros x Hx. apply Hl. now right.
Qed.

(** X7.  The instance method and the queries disagree at the instant of
    expiry: every row [verifyOTP] returns is valid for [isValid], but an
    unused row whose [expiresAt] equals the current time is valid for
    [isValid] and is never returned by [verifyOTP]. *)
Theorem isValid_at_expiry :
  forall t u c p table o,
    (verifyOTP t u c p table = Some o -> isValid t o = true)
    /\ (used o = false -> expiresAt o = t ->
        isValid t o = true /\ verifyOTP t u c p table <> Some o).
Proof.
  intros t u c p table o. split.
  - intros H. unfold verifyOTP in H. apply find_some in H.
    destruct H as [_ H]. apply andb_prop in H. destruct H as [_ H].
    unfold pending in H. apply andb_prop in H. destruct H as [Hu He].
    unfold isValid, isExpired. rewrite Hu, andb_true_r.
    apply Z.ltb_lt in He.
    destruct (expiresAt o <? t) eqn:E; [apply Z.ltb_lt in E; lia|reflexivity].
  - intros Hu He. split.
    + unfold isValid, isExpired. rewrite Hu, He, Z.ltb_irrefl. reflexivity.
    + intros H. unfold verifyOTP in H. apply find_some in H.
      destruct H as [_ H]. apply andb_prop in H. destruct H as [_ H].
      unfold pending in H. rewrite He, Z.ltb_irrefl, andb_false_r in H.
      discriminate.
Qed.

Lemma isValid_at_expiry_witness :
  isValid 500000 (mkOTP 1 "USR-1" "111111" password_reset 500000 false
                        None 1000) = true.
Proof.
  refine (proj1 (proj2 (isValid_at_expiry 500000 "USR-1" "111111"
                          password_reset []
                          (mkOTP 1 "USR-1" "111111" password_reset 500000
                                 false None 1000)) _ _)); reflexivity.
Defined.



(* ===================================================================== *)
(** ** More on the workflows                                              *)
(* ===================================================================== *)



Section Flows.

Context {bcrypt : Bcrypt}.


Lemma handle_reset_password env tok pw db :
  handle env (POST_reset_password tok pw) db
  = (fst (run (resetPassword env tok pw) db),
     respond (snd (run (resetPassword env tok pw) db))).
Proof.
  unfold handle. cbn [service]. destruct (run (resetPassword env tok pw) db).
  reflexivity.
Qed.

Lemma jwt_verify_reset_token env1 env u :
  jwtSecret (config env) = jwtSecret (config env1) ->
  jwt_verify (now env) (reset_token env1 u) (jwtSecret (config env))
  = if seconds (now env1) + 900 <=? seconds (now env)
    then inl (JsonWebTokenError "jwt expired")
    else inr (PurposePayload (user_id u) "password_reset").
Proof.
  intros Hk. unfold jwt_verify, reset_token, jwt_sign. simpl.
  rewrite Hk, String.eqb_refl. reflexivity.
Qed.

(** X10.  The reset token of [verifyOtp] is good for fifteen minutes and
    under the server's key only: presented later, or signed with another
    key, it is answered with 401 INVALID_TOKEN, whatever the new password,
    and nothing changes. *)
Theorem resetPassword_token_lifetime :
  forall env1 env db u newPassword tok,
    (tok = reset_token env1 u
     /\ jwtSecret (config env) = jwtSecret (config env1)
     /\ seconds (now env1) + 15 * 60 <= seconds (now env))
    \/ tok_key tok <> jwtSecret (config env) ->
    handle env (POST_reset_password tok newPassword) db
    = (db, mkResponse 401 (Failure "INVALID_TOKEN")).
Proof.
  intros env1 env db u newPassword tok H.
  assert (Hv : exists m, jwt_verify (now env) tok (jwtSecret (config env))
                         = inl (JsonWebTokenError m)).
  { destruct H as [(-> & Hk & Hexp)|Hkey].
    - rewrite (jwt_verify_reset_token env1 env u Hk).
      apply Z.leb_le in Hexp. change (15 * 60) with 900 in Hexp.
      rewrite Hexp. eauto.
    - unfold jwt_verify.
      destruct (String.eqb (tok_key tok) (jwtSecret (config env))) eqn:E;
        [apply String.eqb_eq in E; contradiction|].
      simpl. eauto. }
  destruct Hv as [m Hv].
  rewrite handle_reset_password.
  unfold resetPassword. unfold_workflow. rewrite Hv. reflexivity.
Qed.


Lemma run_verifyAuthToken env token db :
  run (verifyAuthToken env token) db
  = (db,
     match token with
     | None => inl (AppError "NO_TOKEN" 401)
     | Some token =>
         match jwt_verify (now env) token (jwtSecret (config env)) with
         | inl (JsonWebTokenError _) => inl (AppError "INVALID_TOKEN" 401)
         | inl (AppError m c) => inl (AppError m c)
         | inl (Error _) => inl (AppError "TOKEN_VERIFICATION_ERROR" 500)
         | inr (AuthTokenPayload id _ _ ACCESS) =>
             match User_findByPk id db with
             | None => inl (AppError "USER_NOT_FOUND" 404)
             | Some user => inr ("Token is valid", user_view user)
             end
         | inr _ => inl (AppError "INVALID_TOKEN_TYPE" 401)
         end
     end).
Proof.
  unfold verifyAuthToken. unfold_workflow.
  destruct token as [token|]; [|reflexivity]. simpl.
  destruct (jwt_verify (now env) token (jwtSecret (config env)))
    as [[m c|m|m]|[id e r [| | |]|sub pu]]; try reflexivity.
  simpl. destruct (User_findByPk id db); reflexivity.
Qed.

(** X12.  Each kind of token opens one door only.  Of the pair signed by
    [generateAuthTokens], the access token is accepted by
    [verifyAuthToken] and refused by [refreshToken]; the refresh token is
    refused by [verifyAuthToken]; neither is accepted as a reset token;
    and the reset token of [verifyOtp] is refused by [verifyAuthToken]
    and by [refreshToken].  None of the refusals changes the tables. *)
Theorem token_types_are_separated :
  forall env0 env db u newPassword,
    let access := fst (generateAuthTokens env0 u) in
    let refresh := snd (generateAuthTokens env0 u) in
    let reset := reset_token env0 u in
    jwtSecret (config env) = jwtSecret (config env0) ->
    seconds (now env) < seconds (now env0) + 15 * 60 ->
    User_findByPk (user_id u) db = Some u ->
    run (verifyAuthToken env (Some access)) db
    = (db, inr ("Token is valid", user_view u))
    /\ run (verifyAuthToken env (Some refresh)) db
       = (db, inl (AppError "INVALID_TOKEN_TYPE" 401))
    /\ run (verifyAuthToken env (Some reset)) db
       = (db, inl (AppError "INVALID_TOKEN_TYPE" 401))
    /\ handle env (POST_refresh_token access) db
       = (db, mkResponse 401 (Failure "INVALID_TOKEN_TYPE"))
    /\ handle env (POST_refresh_token reset) db
       = (db, mkResponse 401 (Failure "INVALID_TOKEN_TYPE"))
    /\ handle env (POST_reset_password access newPassword) db
       = (db, mkResponse 500 (Failure "Internal Server Error"))
    /\ handle env (POST_reset_password refresh newPassword) db
       = (db, mkResponse 500 (Failure "Internal Server Error")).
Proof.
  intros env0 env db u newPassword access refresh reset Hk Ht Hu.
  assert (Hauth : forall type ttl,
             15 * 60 <= ttl ->
             jwt_verify (now env)
               (jwt_sign (now env0)
                  (AuthTokenPayload (user_id u) (email u) (role u) type)
                  (jwtSecret (config env0)) ttl)
               (jwtSecret (config env))
             = inr (AuthTokenPayload (user_id u) (email u) (role u) type)).
  { intros type ttl Httl. unfold jwt_verify, jwt_sign. simpl.
    rewrite Hk, String.eqb_refl. simpl.
    destruct (seconds (now env0) + ttl <=? seconds (now env)) eqn:E;
      [apply Z.leb_le in E; lia|reflexivity]. }
  assert (Hreset : jwt_verify (now env) reset (jwtSecret (config env))
                   = inr (PurposePayload (user_id u) "password_reset")).
  { subst reset. rewrite (jwt_verify_reset_token env0 env u Hk).
    destruct (seconds (now env0) + 900 <=? seconds (now env)) eqn:E;
      [apply Z.leb_le in E; lia|reflexivity]. }
  assert (Haccess : jwt_verify (now env) access (jwtSecret (config env))
                    = inr (AuthTokenPayload (user_id u) (email u) (role u)
                             ACCESS))
    by (apply Hauth; unfold days; lia).
  assert (Hrefresh : jwt_verify (now env) refresh (jwtSecret (config env))
                     = inr (AuthTokenPayload (user_id u) (email u) (role u)
                              REFRESH))
    by (apply Hauth; unfold days; lia).
  repeat split.
  - now rewrite run_verifyAuthToken, Haccess, Hu.
  - now rewrite run_verifyAuthToken, Hrefresh.
  - now rewrite run_verifyAuthToken, Hreset.
  - unfold handle. cbn [service]. unfold refreshToken. unfold_workflow.
    now rewrite Haccess.
  - unfold handle. cbn [service]. unfold refreshToken. unfold_workflow.
    now rewrite Hreset.
  - rewrite handle_reset_password. unfold resetPassword. unfold_workflow.
    now rewrite Haccess.
  - rewrite handle_reset_password. unfold resetPassword. unfold_workflow.
    now rewrite Hrefresh.
Qed.



Lemma requestEmailVerification_run env id db :
  run (requestEmailVerification env id) db
  = match User_findByPk id db with
    | None => (db, inl rolled_back_twice)
    | Some u =>
        if emailVerified u
        then (db, inr (Message "Email is already verified"))
        else if MAX_ATTEMPTS <=? recent_attempts env u email_verification db
        then (db, inl rolled_back_twice)
        else
          let db' :=
            mkDB (users db)
                 (fst (createOTP (now env) (random env) (user_id u)
                         email_verification (verification_options u)
                         (otps db))) in
          if commit_ok env
          then (db', inr (Message "Verification code sent to your email"))
          else (db', inl committed_then_rolled_back)
    end.
Proof.
  unfold requestEmailVerification, recent_attempts. unfold_workflow.
  destruct (User_findByPk id db) as [u|]; [|reflexivity]. simpl.
  destruct (emailVerified u); [reflexivity|]. simpl.
  destruct (MAX_ATTEMPTS <=? _); [reflexivity|]. simpl.
  destruct (commit_ok env); reflexivity.
Qed.

Lemma verifyEmail_run env id c db :
  run (verifyEmail env id c) db
  = match User_findByPk id db with
    | None => (db, inl rolled_back_twice)
    | Some u =>
        if emailVerified u
        then (db, inr (Message "Email is already verified"))
        else
          match OTP_findOne (where_code id c email_verification (now env))
                            db with
          | None => (db, inl rolled_back_twice)
          | Some o =>
              if commit_ok env
              then (apply_write (apply_write db (WOtpUsed (otp_id o)))
                      (WUserEmailVerified (user_id u)),
                    inr (Message "Email verified successfully"))
              else (db, inl committed_then_rolled_back)
          end
    end.
Proof.
  unfold verifyEmail. unfold_workflow.
  destruct (User_findByPk id db) as [u|]; [|reflexivity]. simpl.
  destruct (emailVerified u); [reflexivity|]. simpl.
  destruct (OTP_findOne _ db); [|reflexivity]. simpl.
  destruct (commit_ok env); reflexivity.
Qed.


Lemma changePassword_run env id cur new db :
  run (changePassword env id cur new) db
  = match User_findByPk id db with
    | None => (db, inl rolled_back_twice)
    | Some u =>
        if negb (verifyPassword u cur) then (db, inl rolled_back_twice)
        else if verifyPassword u new then (db, inl rolled_back_twice)
        else if String.eqb new (password u)
        then if commit_ok env
             then (db, inr (Message "Password changed successfully"))
             else (db, inl committed_then_rolled_back)
        else if (6 <=? Z.of_nat (String.length new))
                && (Z.of_nat (String.length new) <=? 255)
        then if commit_ok env
             then (apply_write db
                     (WUserPassword (user_id u)
                        (bcrypt_hash new (rand_salt (random env)))),
                   inr (Message "Password changed successfully"))
             else (db, inl committed_then_rolled_back)
        else (db, inl (AppError "PASSWORD_CHANGE_ERROR" 500))
    end.
Proof.
  unfold changePassword, user_update_password. unfold_workflow.
  destruct (User_findByPk id db) as [u|]; [|reflexivity]. simpl.
  destruct (verifyPassword u cur); [|reflexivity]. simpl.
  destruct (verifyPassword u new); [reflexivity|]. simpl.
  destruct (String.eqb new (password u)); simpl.
  - destruct (commit_ok env); reflexivity.
  - destruct ((6 <=? Z.of_nat (String.length new))
              && (Z.of_nat (String.length new) <=? 255)); simpl;
      [destruct (commit_ok env)|]; reflexivity.
Qed.







(** *** The rate limit over a history of requests *)

Lemma handle_served_effect env req db :
  served_effect env (otps db) (otps (fst (handle env req db))).
Proof.
  assert (Hnone : served_effect env (otps db) (otps db)).
  { rewrite <- (update_used_where_none (otps db)) at 2. apply served_mark. }
  replace (fst (handle env req db)) with (fst (run (service env req) db))
    by (unfold handle; now destruct (run (service env req) db)).
  destruct req; cbn [service].
  - now rewrite login_effect.
  - now rewrite refreshToken_effect.
  - rewrite forgotPassword_run.
    destruct (User_findOne _ db) as [u|];
      [destruct (MAX_ATTEMPTS <=? _) eqn:E|];
      unfold commit_and_respond; destruct (commit_ok env); cbn [fst otps];
      try exact Hnone;
      apply served_create; apply Z.leb_gt in E; exact E.
  - rewrite verifyOtp_run.
    destruct (User_findOne _ db); [|exact Hnone].
    destruct (OTP_findOne_latest _ db); [|exact Hnone].
    destruct (commit_ok env); [|exact Hnone].
    cbn [fst apply_write otps]. apply served_mark.
  - unfold resetPassword, user_update_password. unfold_workflow.
    repeat case_split; try exact Hnone; apply served_mark.
  - rewrite requestEmailVerification_run.
    destruct (User_findByPk _ db) as [u|]; [|exact Hnone].
    destruct (emailVerified u); [exact Hnone|].
    destruct (MAX_ATTEMPTS <=? _) eqn:E; [exact Hnone|].
    cbv zeta. destruct (commit_ok env); cbn [fst otps];
      apply served_create; apply Z.leb_gt in E; exact E.
  - rewrite verifyEmail_run.
    destruct (User_findByPk _ db) as [u|]; [|exact Hnone].
    destruct (emailVerified u); [exact Hnone|].
    destruct (OTP_findOne _ db); [|exact Hnone].
    destruct (commit_ok env); [|exact Hnone].
    cbn [fst apply_write otps]. apply served_mark.
  - now rewrite changePassword_effect.
Qed.

Lemma filter_length_map {A} (g : A -> bool) (h : A -> A) (l : list A) :
  (forall x, g (h x) = g x) ->
  List.length (filter g (map h l)) = List.length (filter g l).
Proof.
  intros H. induction l as [|x l IH]; simpl; [reflexivity|].
  rewrite H. destruct (g x); simpl; now rewrite IH.
Qed.

Lemma issued_in_window_mark u p t f table :
  issued_in_window u p t (update_used_where f table)
  = issued_in_window u p t table.
Proof.
  unfold issued_in_window, update_used_where.
  apply filter_length_map. intros o. now destruct (f o).
Qed.

Lemma issued_in_window_le_recent u p t t' table :
  t <= t' ->
  (issued_in_window u p t' table <= issued_recently u p t table)%nat.
Proof.
  intros Ht. unfold issued_in_window, issued_recently.
  apply filter_length_le. intros o H.
  apply andb_prop in H. destruct H as [H _].
  unfold where_recent in *.
  apply andb_prop in H. destruct H as [H Hc]. rewrite H. cbn [andb].
  apply Z.ltb_lt. apply Z.ltb_lt in Hc. lia.
Qed.

(** X17.  Served one after the other, the requests never issue more
    than three codes for one user and purpose in any quarter of an
    hour: in every table reached from an empty one, each window of
    fifteen minutes holds at most three rows of a (user, purpose). *)
Theorem served_rate_limit :
  forall t db u p window_end,
    served t db ->
    (issued_in_window u p window_end (otps db) <= 3)%nat.
Proof.
  intros t db u p T Hs. revert u p T.
  induction Hs as [t users_|t db env req _ IH Ht]; intros u p T.
  - cbn. lia.
  - destruct (handle_served_effect env req db) as [f|u0 p0 options Hlimit].
    + rewrite issued_in_window_mark. apply IH.
    + rewrite createOTP_table. unfold issued_in_window.
      rewrite filter_app, length_app.
      fold (issued_in_window u p T
              (update_used_where (pending_for u0 p0 (now env)) (otps db))).
      rewrite issued_in_window_mark.
      set (otp := snd (createOTP (now env) (random env) u0 p0 options
                         (otps db))).
      cbn [filter].
      destruct (where_recent u p (T - RATE_LIMIT_WINDOW_MS) otp
                && (createdAt otp <=? T)) eqn:Hnew.
      * apply andb_prop in Hnew. destruct Hnew as [Hw Hle].
        apply Z.leb_le in Hle. change (createdAt otp) with (now env) in Hle.
        unfold where_recent in Hw.
        apply andb_prop in Hw. destruct Hw as [Hw _].
        apply andb_prop in Hw. destruct Hw as [Hu Hp].
        apply String.eqb_eq in Hu. apply purpose_eqb_eq in Hp.
        change (userId otp) with u0 in Hu.
        change (purpose otp) with p0 in Hp. subst u0 p0.
        pose proof (issued_in_window_le_recent u p (now env) T (otps db) Hle).
        unfold MAX_ATTEMPTS in Hlimit. cbn [List.length]. lia.
      * specialize (IH u p T). cbn [List.length]. lia.
Qed.

(** *** The middleware *)

(** X18.  The three exported middlewares are the same permissive one:
    [isAdmin] and [isAuthenticated] never answer 401 or 403; every
    request goes on to the handler, without a token, with a token that
    does not verify, and with a token of any role or kind, and
    [req.payload] is set exactly when the token verifies. *)
Theorem isAdmin_never_rejects :
  forall env authorization cookie,
    isAdmin env authorization cookie
    = isAuthenticated env authorization cookie
    /\ exists payload,
         isAdmin env authorization cookie = Next payload
         /\ forall decoded,
              payload = Some decoded <->
              exists token,
                (authorization = Some token
                 \/ (authorization = None /\ cookie = Some token))
                /\ jwt_verify (now env) token (jwtSecret (config env))
                   = inr decoded.
Proof.
  intros env authorization cookie. split; [reflexivity|].
  unfold isAdmin, Auth.
  destruct authorization as [tok|]; [|destruct cookie as [tok|]].
  - destruct (jwt_verify (now env) tok (jwtSecret (config env)))
      as [err|d] eqn:E; eexists; (split; [reflexivity|]);
      intros decoded; split.
    + discriminate.
    + intros (token & [H|[H _]] & Hv); [|discriminate].
      injection H as <-. congruence.
    + intros H. injection H as <-. exists tok. auto.
    + intros (token & [H|[H _]] & Hv); [|discriminate].
      injection H as <-. congruence.
  - destruct (jwt_verify (now env) tok (jwtSecret (config env)))
      as [err|d] eqn:E; eexists; (split; [reflexivity|]);
      intros decoded; split.
    + discriminate.
    + intros (token & [H|[_ H]] & Hv); [discriminate|].
      injection H as <-. congruence.
    + intros H. injection H as <-. exists tok. auto.
    + intros (token & [H|[_ H]] & Hv); [discriminate|].
      injection H as <-. congruence.
  - eexists. split; [reflexivity|]. intros decoded. split; [discriminate|].
    intros (token & [H|[_ H]] & _); discriminate.
Qed.

(** X19.  The strict form [Auth(role, true)] is sound: it calls
    [next()] only for a token that verifies and carries the required
    role; without a token or with one that does not verify it answers
    401, and with another role 403. *)
Theorem Auth_required_role :
  forall role env authorization cookie,
    role <> EmptyString ->
    match Auth (Some role) true env authorization cookie with
    | Next payload =>
        exists token decoded,
          (authorization = Some token
           \/ (authorization = None /\ cookie = Some token))
          /\ jwt_verify (now env) token (jwtSecret (config env))
             = inr decoded
          /\ payload = Some decoded
          /\ payload_role decoded = Some role
    | Rejected status _ =>
        (status = 401
         /\ forall token decoded,
              (authorization = Some token
               \/ (authorization = None /\ cookie = Some token)) ->
              jwt_verify (now env) token (jwtSecret (config env))
              <> inr decoded)
        \/ (status = 403
            /\ exists token decoded,
                 (authorization = Some token
                  \/ (authorization = None /\ cookie = Some token))
                 /\ jwt_verify (now env) token (jwtSecret (config env))
                    = inr decoded
                 /\ payload_role decoded <> Some role)
    end.
Proof.
  intros role env authorization cookie Hrole.
  destruct role as [|rc role]; [contradiction|].
  assert (Hcase : forall tok,
             (authorization = Some tok
              \/ (authorization = None /\ cookie = Some tok)) ->
             match
               match jwt_verify (now env) tok (jwtSecret (config env)) with
               | inr decoded =>
                   if negb (role_matches decoded (String rc role))
                   then Rejected 403 "Forbidden: Insufficient permissions"
                   else Next (Some decoded)
               | inl _ => Rejected 401 "Unauthorized: Invalid token"
               end
             with
             | Next payload =>
                 exists token decoded,
                   (authorization = Some token
                    \/ (authorization = None /\ cookie = Some token))
                   /\ jwt_verify (now env) token (jwtSecret (config env))
                      = inr decoded
                   /\ payload = Some decoded
                   /\ payload_role decoded = Some (String rc role)
             | Rejected status _ =>
                 (status = 401
                  /\ forall token decoded,
                       (authorization = Some token
                        \/ (authorization = None /\ cookie = Some token)) ->
                       jwt_verify (now env) token (jwtSecret (config env))
                       <> inr decoded)
                 \/ (status = 403
                     /\ exists token decoded,
                          (authorization = Some token
                           \/ (authorization = None
                               /\ cookie = Some token))
                          /\ jwt_verify (now env) token
                               (jwtSecret (config env)) = inr decoded
                          /\ payload_role decoded
                             <> Some (String rc role))
             end).
  { intros tok Htok.
    assert (Honly : forall token,
               (authorization = Some token
                \/ (authorization = None /\ cookie = Some token)) ->
               token = tok).
    { intros token [H|[H1 H2]]; destruct Htok as [H'|[H1' H2']]; congruence. }
    destruct (jwt_verify (now env) tok (jwtSecret (config env)))
      as [err|d] eqn:E.
    - left. split; [reflexivity|]. intros token decoded Ht.
      rewrite (Honly token Ht). congruence.
    - unfold role_matches.
      destruct (payload_role d) as [r|] eqn:Er; cbn [negb].
      + destruct (String.eqb r (String rc role)) eqn:Eq; cbn [negb].
        * apply String.eqb_eq in Eq. subst r.
          exists tok, d. auto.
        * right. split; [reflexivity|]. exists tok, d.
          repeat split; auto. rewrite Er. intros H. injection H as H.
          subst r. rewrite String.eqb_refl in Eq. discriminate.
      + right. split; [reflexivity|]. exists tok, d.
        repeat split; auto. rewrite Er. discriminate. }
  unfold Auth.
  destruct authorization as [tok|]; [|destruct cookie as [tok|]].
  - apply Hcase. now left.
  - apply Hcase. now right.
  - left. split; [reflexivity|].
    intros token decoded [H|[_ H]]; discriminate.
Qed.

(** X20.  [POST /auth/request-verification] is answered with 200 or
    with 500 and nothing else: without a token, or with one that does
    not verify, the controller fails on [req.payload.id] and the answer
    is 500 "Internal Server Error" (there is no 401); with a verified
    token the service runs for the id in it, whatever the kind of
    token. *)
Theorem request_verification_route :
  forall env authorization cookie db,
    let answer :=
      POST_auth_request_verification env authorization cookie db in
    (http_status (snd answer) = 200 \/ http_status (snd answer) = 500)
    /\ ((forall token,
            (authorization = Some token
             \/ (authorization = None /\ cookie = Some token)) ->
            exists err, jwt_verify (now env) token (jwtSecret (config env))
                        = inl err) ->
        answer = (db, mkResponse 500 (Failure "Internal Server Error")))
    /\ (forall token id e r type,
           (authorization = Some token
            \/ (authorization = None /\ cookie = Some token)) ->
           jwt_verify (now env) token (jwtSecret (config env))
           = inr (AuthTokenPayload id e r type) ->
           answer = handle env (POST_request_verification id) db).
Proof.
  intros env authorization cookie db answer. subst answer.
  unfold POST_auth_request_verification, isAuthOrUnAuth, isAuthenticated,
    Auth.
  assert (Hstatus : forall id,
             let a := handle env (POST_request_verification id) db in
             http_status (snd a) = 200 \/ http_status (snd a) = 500).
  { intros id. unfold handle. cbn [service].
    rewrite requestEmailVerification_run.
    destruct (User_findByPk id db) as [u|]; [|now right].
    destruct (emailVerified u); [now left|].
    destruct (MAX_ATTEMPTS <=? _); [now right|].
    cbv zeta. destruct (commit_ok env); [now left|now right]. }
  assert (Hnoid : run requestEmailVerification_no_id db
                  = (db, inl rolled_back_twice)) by reflexivity.
  set (token := match authorization with
                | Some t => Some t
                | None => cookie
                end).
  assert (Htoken : forall tok,
             (authorization = Some tok
              \/ (authorization = None /\ cookie = Some tok)) <->
             token = Some tok).
  { intros tok. subst token. destruct authorization as [t|].
    - split; [intros [H|[H _]]; congruence|intros H; left; congruence].
    - split; [intros [H|[_ H]]; congruence|intros H; right; auto]. }
  clearbody token.
  destruct token as [tok|].
  - destruct (jwt_verify (now env) tok (jwtSecret (config env)))
      as [err|[id e r type|sub pu]] eqn:E.
    + split; [now right|]. split; [reflexivity|].
      intros token id e r type Ht Hv. apply Htoken in Ht.
      injection Ht as <-. congruence.
    + cbn [payload_id]. split; [apply Hstatus|]. split.
      * intros H. destruct (H tok (proj2 (Htoken tok) eq_refl)) as [err H'].
        congruence.
      * intros token id' e' r' type' Ht Hv. apply Htoken in Ht.
        injection Ht as <-. congruence.
    + cbn [payload_id]. rewrite Hnoid. split; [now right|]. split.
      * reflexivity.
      * intros token id e r type Ht Hv. apply Htoken in Ht.
        injection Ht as <-. congruence.
  - split; [now right|]. split; [reflexivity|].
    intros tok id e r type Ht. apply Htoken in Ht. discriminate.
Qed.

(** *** Sessions *)

Lemma users_unchanged_ok (l : list User) :
  exists f, (forall x, same_account x (f x)) /\ l = map f l.
Proof.
  exists (fun x => x). split; [intros x; repeat split|].
  symmetry. apply map_id.
Qed.

Lemma users_update_ok id g (l : list User) :
  (forall x, same_account x (g x)) ->
  exists f, (forall x, same_account x (f x)) /\ update_user id g l = map f l.
Proof.
  intros Hg.
  exists (fun u => if String.eqb (user_id u) id then g u else u).
  split; [|reflexivity].
  intros x. destruct (String.eqb (user_id x) id); [apply Hg|repeat split].
Qed.

Lemma same_account_set_password h x : same_account x (set_password h x).
Proof. repeat split. Qed.

Lemma same_account_set_emailVerified x :
  same_account x (set_emailVerified x).
Proof. repeat split. Qed.

Lemma handle_users env req db :
  exists f, (forall x, same_account x (f x))
            /\ users (fst (handle env req db)) = map f (users db).
Proof.
  replace (fst (handle env req db)) with (fst (run (service env req) db))
    by (unfold handle; now destruct (run (service env req) db)).
  destruct req; cbn [service].
  - rewrite login_effect. apply users_unchanged_ok.
  - rewrite refreshToken_effect. apply users_unchanged_ok.
  - rewrite forgotPassword_run.
    destruct (User_findOne _ db) as [u|];
      [destruct (MAX_ATTEMPTS <=? _)|];
      unfold commit_and_respond; destruct (commit_ok env); cbn [fst users];
      apply users_unchanged_ok.
  - rewrite verifyOtp_run.
    destruct (User_findOne _ db); [|apply users_unchanged_ok].
    destruct (OTP_findOne_latest _ db); [|apply users_unchanged_ok].
    destruct (commit_ok env); apply users_unchanged_ok.
  - unfold resetPassword, user_update_password. unfold_workflow.
    repeat case_split; cbn [fst users];
      first [apply users_unchanged_ok
            |apply users_update_ok; apply same_account_set_password].
  - rewrite requestEmailVerification_run.
    destruct (User_findByPk _ db) as [u|]; [|apply users_unchanged_ok].
    destruct (emailVerified u); [apply users_unchanged_ok|].
    destruct (MAX_ATTEMPTS <=? _); [apply users_unchanged_ok|].
    cbv zeta. destruct (commit_ok env); cbn [fst users];
      apply users_unchanged_ok.
  - rewrite verifyEmail_run.
    destruct (User_findByPk _ db) as [u|]; [|apply users_unchanged_ok].
    destruct (emailVerified u); [apply users_unchanged_ok|].
    destruct (OTP_findOne _ db); [|apply users_unchanged_ok].
    destruct (commit_ok env); [|apply users_unchanged_ok].
    cbn [fst apply_write users].
    apply users_update_ok, same_account_set_emailVerified.
  - rewrite changePassword_run.
    destruct (User_findByPk _ db) as [u|]; [|apply users_unchanged_ok].
    destruct (negb _); [apply users_unchanged_ok|].
    destruct (verifyPassword u _); [apply users_unchanged_ok|].
    destruct (String.eqb _ _);
      [destruct (commit_ok env); apply users_unchanged_ok|].
    destruct (_ && _); [|apply users_unchanged_ok].
    destruct (commit_ok env); [|apply users_unchanged_ok].
    cbn [fst apply_write users].
    apply users_update_ok, same_account_set_password.
Qed.

Lemma User_findByPk_map f id db db' :
  (forall x, same_account x (f x)) ->
  users db' = map f (users db) ->
  User_findByPk id db' = option_map f (User_findByPk id db).
Proof.
  intros Hf Hmap. unfold User_findByPk, User_findOne. rewrite Hmap.
  clear Hmap. induction (users db) as [|x l IH]; [reflexivity|].
  cbn [map find]. destruct (Hf x) as (Hid & _ & _ & _ & _ & _ & _ & Hdel).
  unfold paranoid at 1 3. rewrite Hid, Hdel.
  destruct (match user_deletedAt x with Some _ => false | None => true end
            && String.eqb (user_id x) id); [reflexivity|exact IH].
Qed.

Lemma same_account_trans u v w :
  same_account u v -> same_account v w -> same_account u w.
Proof.
  unfold same_account. intros H1 H2.
  destruct H1 as (?&?&?&?&?&?&?&?), H2 as (?&?&?&?&?&?&?&?).
  repeat split; congruence.
Qed.

Lemma serve_all_account requests : forall id db u,
  User_findByPk id db = Some u ->
  exists u', User_findByPk id (serve_all requests db) = Some u'
             /\ same_account u u'.
Proof.
  induction requests as [|[env req] requests IH]; intros id db u Hu.
  - exists u. split; [exact Hu|repeat split].
  - destruct (handle_users env req db) as (f & Hf & Hmap).
    pose proof (User_findByPk_map f id db _ Hf Hmap) as H1.
    rewrite Hu in H1. cbn [option_map] in H1.
    destruct (IH id _ _ H1) as (u' & Hu' & Hsame).
    exists u'. split; [exact Hu'|].
    eapply same_account_trans; [apply Hf|exact Hsame].
Qed.

(** X21.  Nothing that the auth API serves ends a session.  Whatever
    requests are served after a user's tokens were signed (a password
    change or reset included), the user is still found with the same
    id, name, address, status, role and credits; the access token is
    accepted by [verifyAuthToken] until its 360 days are over, and the
    refresh token is exchanged for a new pair until its 7 days are
    over. *)
Theorem sessions_survive :
  forall env0 requests env db u,
    User_findByPk (user_id u) db = Some u ->
    jwtSecret (config env) = jwtSecret (config env0) ->
    seconds (now env) < seconds (now env0) + days 360 ->
    let access := fst (generateAuthTokens env0 u) in
    let refresh := snd (generateAuthTokens env0 u) in
    let db' := serve_all requests db in
    exists u',
      User_findByPk (user_id u) db' = Some u'
      /\ same_account u u'
      /\ run (verifyAuthToken env (Some access)) db'
         = (db', inr ("Token is valid", user_view u'))
      /\ (seconds (now env) < seconds (now env0) + days 7 ->
          handle env (POST_refresh_token refresh) db'
          = (db', mkResponse 200
                    (Tokens "Token refreshed successfully"
                       (fst (generateAuthTokens env u'))
                       (snd (generateAuthTokens env u'))))).
Proof.
  intros env0 requests env db u Hu Hkey Hlife access refresh db'.
  destruct (serve_all_account requests (user_id u) db u Hu)
    as (u' & Hu' & Hsame).
  fold db' in Hu'.
  exists u'. split; [exact Hu'|]. split; [exact Hsame|]. split.
  - rewrite run_verifyAuthToken. subst access.
    unfold generateAuthTokens, jwt_verify, jwt_sign.
    cbn [fst tok_key tok_exp tok_payload].
    rewrite Hkey, String.eqb_refl. cbn [negb].
    destruct (seconds (now env0) + days 360 <=? seconds (now env)) eqn:E;
      [apply Z.leb_le in E; lia|].
    now rewrite Hu'.
  - intros H7. unfold handle. cbn [service]. subst refresh.
    unfold refreshToken, generateAuthTokens at 1, jwt_verify, jwt_sign.
    unfold_workflow.
    rewrite Hkey, String.eqb_refl. simpl.
    destruct (seconds (now env0) + days 7 <=? seconds (now env)) eqn:E;
      [apply Z.leb_le in E; lia|].
    simpl. rewrite Hu'. reflexivity.
Qed.

End Flows.

(** X22.  [verifyOTP] and [getValidOTPs] agree: the row [verifyOTP]
    returns for (u, c, p) is listed by [getValidOTPs(u, p)] and by
    [getValidOTPs(u)], and carries the code [c]; and [verifyOTP] returns
    nothing exactly when no row listed by [getValidOTPs(u, p)] carries
    that code. *)
Theorem getValidOTPs_verifyOTP :
  forall t u c p table,
    (forall o, verifyOTP t u c p table = Some o ->
               In o (getValidOTPs t u (Some p) table)
               /\ In o (getValidOTPs t u None table)
               /\ code o = c)
    /\ (verifyOTP t u c p table = None <->
        forall o, In o (getValidOTPs t u (Some p) table) -> code o <> c).
Proof.
  intros t u c p table. split; [|split].
  - intros o H. unfold verifyOTP in H. apply find_some in H.
    destruct H as [Hin H].
    apply andb_prop in H. destruct H as [H Hpend].
    apply andb_prop in H. destruct H as [H Hp].
    apply andb_prop in H. destruct H as [Hu Hc].
    unfold getValidOTPs. rewrite !filter_In, Hu, Hpend, Hp.
    repeat split; auto. now apply String.eqb_eq.
  - intros H o Ho Hc. unfold getValidOTPs in Ho. apply filter_In in Ho.
    destruct Ho as [Hin Ho].
    apply andb_prop in Ho. destruct Ho as [Ho Hp].
    apply andb_prop in Ho. destruct Ho as [Hu Hpend].
    unfold verifyOTP in H. pose proof (find_none _ _ H o Hin) as Hn.
    cbv beta in Hn. rewrite Hu, Hp, Hpend in Hn.
    apply String.eqb_eq in Hc. rewrite Hc in Hn. discriminate.
  - intros H. unfold verifyOTP.
    destruct (find _ table) as [o|] eqn:E; [|reflexivity].
    apply find_some in E. destruct E as [Hin E].
    apply andb_prop in E. destruct E as [E Hpend].
    apply andb_prop in E. destruct E as [E Hp].
    apply andb_prop in E. destruct E as [Hu Hc].
    exfalso. apply (H o).
    + unfold getValidOTPs. rewrite filter_In, Hu, Hpend, Hp. auto.
    + now apply String.eqb_eq.
Qed.

(* ===================================================================== *)
(** ** The further properties on the sample data                          *)
(* ===================================================================== *)


Lemma resetPassword_token_lifetime_witness :
  handle (bcrypt := toy_bcrypt) (Sample.at_ 1000000)
         (POST_reset_password Sample.alice_reset_token "NewPass1") Sample.db2
  = (Sample.db2, mkResponse 401 (Failure "INVALID_TOKEN")).
Proof.
  refine (resetPassword_token_lifetime (bcrypt := toy_bcrypt)
            (Sample.at_ 2000) (Sample.at_ 1000000) Sample.db2 Sample.alice
            "NewPass1" Sample.alice_reset_token _).
  left. split; [reflexivity|]. split; [reflexivity|].
  vm_compute. discriminate.
Defined.


Lemma token_types_are_separated_witness :
  handle (bcrypt := toy_bcrypt) (Sample.at_ 2000)
         (POST_refresh_token
            (fst (generateAuthTokens (Sample.at_ 1000) Sample.alice)))
         Sample.db0
  = (Sample.db0, mkResponse 401 (Failure "INVALID_TOKEN_TYPE")).
Proof.
  refine (proj1 (proj2 (proj2 (proj2
            (token_types_are_separated (bcrypt := toy_bcrypt)
               (Sample.at_ 1000) (Sample.at_ 2000) Sample.db0 Sample.alice
               "NewPass1" _ _ _))))).
  - reflexivity.
  - vm_compute. reflexivity.
  - vm_compute. reflexivity.
Defined.




Lemma served_rate_limit_witness :
  (issued_in_window "USR-1" password_reset 1000
     (otps (fst (handle (bcrypt := toy_bcrypt) (Sample.at_ 1000)
                   (POST_forgot_password "alice@example.com") Sample.db0)))
   <= 3)%nat.
Proof.
  refine (served_rate_limit (bcrypt := toy_bcrypt) (now (Sample.at_ 1000)) _
            "USR-1" password_reset 1000 _).
  refine (served_step (H := toy_bcrypt) 0 Sample.db0 (Sample.at_ 1000)
            (POST_forgot_password "alice@example.com") _ _).
  - exact (served_start (H := toy_bcrypt) 0
             [Sample.alice; Sample.bob; Sample.carol]).
  - vm_compute. discriminate.
Defined.

Lemma Auth_required_role_witness :
  exists token decoded,
    (Some (fst (generateAuthTokens (Sample.at_ 1000) Sample.alice))
     = Some token
     \/ (Some (fst (generateAuthTokens (Sample.at_ 1000) Sample.alice))
         = None /\ None = Some token))
    /\ jwt_verify (now (Sample.at_ 2000)) token
         (jwtSecret (config (Sample.at_ 2000))) = inr decoded
    /\ Some (AuthTokenPayload "USR-1" "alice@example.com" role_user ACCESS)
       = Some decoded
    /\ payload_role decoded = Some "user".
Proof.
  refine (Auth_required_role "user" (Sample.at_ 2000)
            (Some (fst (generateAuthTokens (Sample.at_ 1000) Sample.alice)))
            None _).
  discriminate.
Defined.

Lemma sessions_survive_witness :
  exists u',
    User_findByPk "USR-1"
      (serve_all (bcrypt := toy_bcrypt)
         [(Sample.at_ 2000,
           POST_change_password "USR-1" "Secret123" "NewPass1")]
         Sample.db0) = Some u'
    /\ same_account Sample.alice u'
    /\ run (verifyAuthToken (Sample.at_ 3000)
              (Some (fst (generateAuthTokens (Sample.at_ 1000)
                            Sample.alice))))
           (serve_all (bcrypt := toy_bcrypt)
              [(Sample.at_ 2000,
                POST_change_password "USR-1" "Secret123" "NewPass1")]
              Sample.db0)
       = (serve_all (bcrypt := toy_bcrypt)
            [(Sample.at_ 2000,
              POST_change_password "USR-1" "Secret123" "NewPass1")]
            Sample.db0,
          inr ("Token is valid", user_view u'))
    /\ (seconds (now (Sample.at_ 3000))
        < seconds (now (Sample.at_ 1000)) + days 7 ->
        handle (bcrypt := toy_bcrypt) (Sample.at_ 3000)
               (POST_refresh_token
                  (snd (generateAuthTokens (Sample.at_ 1000) Sample.alice)))
               (serve_all (bcrypt := toy_bcrypt)
                  [(Sample.at_ 2000,
                    POST_change_password "USR-1" "Secret123" "NewPass1")]
                  Sample.db0)
        = (serve_all (bcrypt := toy_bcrypt)
             [(Sample.at_ 2000,
               POST_change_password "USR-1" "Secret123" "NewPass1")]
             Sample.db0,
           mkResponse 200
             (Tokens "Token refreshed successfully"
                (fst (generateAuthTokens (Sample.at_ 3000) u'))
                (snd (generateAuthTokens (Sample.at_ 3000) u'))))).
Proof.
  refine (sessions_survive (bcrypt := toy_bcrypt) (Sample.at_ 1000)
            [(Sample.at_ 2000,
              POST_change_password "USR-1" "Secret123" "NewPass1")]
            (Sample.at_ 3000) Sample.db0 Sample.alice _ _ _).
  - vm_compute. reflexivity.
  - reflexivity.
  - vm_compute. reflexivity.
Defined.
